(** * samcli/commands/sync/sync_context.py

    The sync command's change-detection cache: a [SyncState] (one mode flag
    and one record per resource), its mapping to and from a TOML document,
    and the [SyncContext] object that loads it when a session starts, serves
    queries and write-through updates, and stores it when the session ends.

    Python values are dynamically typed, so the fields of the dataclasses
    hold Python values ([pyval]); operations that can raise return a
    [result]; the methods of [SyncContext] run in a state monad over the
    object and its environment (file system, heap of dict objects, clock),
    in which a raised exception keeps the effects that happened before it.
    The module-level lock only serialises threads; the model is one thread,
    where acquiring and releasing it is a no-op. *)

From Stdlib Require Import String Ascii List ZArith Bool Lia Eqdep_dec.
Import ListNotations.
Open Scope string_scope.

(** ** Exceptions and results *)

Inductive exn : Type :=
| OSError
| TypeError
| ValueError
| AttributeError
| ParseError.

Inductive result (A : Type) : Type :=
| Ok (a : A)
| Raise (e : exn).
Arguments Ok {A} a.
Arguments Raise {A} e.

Definition rbind {A B} (r : result A) (k : A -> result B) : result B :=
  match r with
  | Ok a => k a
  | Raise e => Raise e
  end.

Definition is_OSError (e : exn) : bool :=
  match e with
  | OSError => true
  | _ => false
  end.

(** ** Strings *)

(** [s.replace(old, new)] for one-character [old] and [new]: every
    occurrence is replaced. *)
Fixpoint replace (old new : ascii) (s : string) : string :=
  match s with
  | EmptyString => EmptyString
  | String c s' =>
      String (if Ascii.eqb c old then new else c) (replace old new s')
  end.

(** [c in s] for a one-character [c]. *)
Fixpoint contains (c : ascii) (s : string) : bool :=
  match s with
  | EmptyString => false
  | String c' s' => Ascii.eqb c' c || contains c s'
  end.

(** ** Python dicts with string keys

    A dict keeps its keys unique and in insertion order; assigning to a key
    that is present replaces the value where the key stands.  Iteration
    visits the keys in that order, which decides which record survives when
    two identifiers are stored under one document key. *)

Abbreviation dict V := (list (string * V)) (only parsing).

Fixpoint dict_get {V} (d : dict V) (k : string) : option V :=
  match d with
  | [] => None
  | (k', v) :: d' => if String.eqb k' k then Some v else dict_get d' k
  end.

Fixpoint dict_set {V} (d : dict V) (k : string) (v : V) : dict V :=
  match d with
  | [] => [(k, v)]
  | (k', v') :: d' =>
      if String.eqb k' k then (k', v) :: d' else (k', v') :: dict_set d' k v
  end.

Definition keys {V} (d : dict V) : list string := map fst d.

(** ** TOML values and Python values

    What tomlkit hands back for a parsed document, as far as this module
    looks at it: booleans, integers, strings, arrays and tables (floats and
    TOML's own date-time values are left out).  Python's [None] is not a
    TOML value; a Python value here is [None] or a TOML value. *)

#[warnings="-register-all"]
Inductive toml : Type :=
| TBool (b : bool)
| TInt (z : Z)
| TStr (s : string)
| TArray (l : list toml)
| TTable (t : list (string * toml)).

Definition pyval : Type := option toml.

Definition toml_document : Type := dict toml.

(** Truth value of a Python value, as [if v:] and [not v] take it. *)
Definition truthy (v : pyval) : bool :=
  match v with
  | None => false
  | Some (TBool b) => b
  | Some (TInt z) => negb (Z.eqb z 0)
  | Some (TStr s) => negb (String.eqb s "")
  | Some (TArray l) => match l with [] => false | _ => true end
  | Some (TTable t) => match t with [] => false | _ => true end
  end.

(** [v.get(key)]: only tables have the method. *)
Definition py_get (v : pyval) (key : string) : result pyval :=
  match v with
  | Some (TTable t) => Ok (dict_get t key)
  | _ => Raise AttributeError
  end.

(** [a == b] on TOML values: booleans are the integers 0 and 1, arrays
    compare element by element, tables compare as mappings. *)
Fixpoint toml_eq (a b : toml) : bool :=
  match a with
  | TBool x =>
      match b with
      | TBool y => Bool.eqb x y
      | TInt y => Z.eqb (Z.b2z x) y
      | _ => false
      end
  | TInt x =>
      match b with
      | TBool y => Z.eqb x (Z.b2z y)
      | TInt y => Z.eqb x y
      | _ => false
      end
  | TStr x => match b with TStr y => String.eqb x y | _ => false end
  | TArray l =>
      match b with
      | TArray m =>
          (fix go (l m : list toml) : bool :=
             match l, m with
             | [], [] => true
             | x :: l', y :: m' => toml_eq x y && go l' m'
             | _, _ => false
             end) l m
      | _ => false
      end
  | TTable t =>
      match b with
      | TTable u =>
          Nat.eqb (length t) (length u) &&
          (fix go (t : list (string * toml)) : bool :=
             match t with
             | [] => true
             | (k, v) :: t' =>
                 match dict_get u k with
                 | Some w => toml_eq v w
                 | None => false
                 end && go t'
             end) t
      | _ => false
      end
  end.

Definition py_eq (a b : pyval) : bool :=
  match a, b with
  | None, None => true
  | Some x, Some y => toml_eq x y
  | _, _ => false
  end.

(** [a != b] *)
Definition py_ne (a b : pyval) : bool := negb (py_eq a b).

(** ** Libraries the module imports

    [datetime] and [tomlkit] are not part of the repository.  The module
    uses them through the operations below; what it relies on is stated as
    laws, separately. *)

(** [datetime.datetime]: [t.isoformat()] and [datetime.fromisoformat(s)],
    which raises [ValueError] ([None] here) on a string that is not in the
    format. *)
Class DateTimeLib : Type := {
  datetime : Type;
  isoformat : datetime -> string;
  fromisoformat : string -> option datetime
}.

(** [tomlkit.dumps], [tomlkit.loads] and the text of an empty file. *)
Class TomlkitLib : Type := {
  Text : Type;
  empty_text : Text;
  dumps : toml_document -> Text;
  loads : Text -> result toml_document
}.

(** What the module relies on: a time written by [isoformat] is read back
    by [fromisoformat], and a document written by [dumps] is read back by
    [loads]. *)
Class DateTimeLaws (DT : DateTimeLib) : Prop := {
  fromisoformat_isoformat :
    forall t : datetime, fromisoformat (isoformat t) = Some t
}.

Class TomlkitLaws (TK : TomlkitLib) : Prop := {
  loads_dumps : forall d : toml_document, loads (dumps d) = Ok d
}.

(** [tomlkit.item(value)], applied by a table to every value assigned into
    it: [None] has no TOML form and is refused (tomlkit's conversion error
    is a [ValueError]). *)
Definition tomlkit_item (value : pyval) : result toml :=
  match value with
  | Some t => Ok t
  | None => Raise ValueError
  end.

(** ** Paths

    A [pathlib.Path] by its parts; [[]] is the current directory and an
    absolute path starts with the part ["/"]. *)

Definition Path : Type := list string.

(** [p.parent]: the path without its last part; the root is its own
    parent. *)
Definition Path_parent (p : Path) : Path :=
  match p with
  | [root] => if String.eqb root "/" then p else []
  | _ => removelast p
  end.

Definition Path_joinpath (p : Path) (name : string) : Path :=
  (p ++ [name])%list.

Fixpoint Path_eqb (p q : Path) : bool :=
  match p, q with
  | [], [] => true
  | a :: p', b :: q' => String.eqb a b && Path_eqb p' q'
  | _, _ => false
  end.

(** [q] is [p] or lies below it. *)
Fixpoint Path_within (p q : Path) : bool :=
  match p, q with
  | [], _ => true
  | a :: p', b :: q' => String.eqb a b && Path_within p' q'
  | _ :: _, [] => false
  end.

(** [samcli.lib.build.build_graph], of which the module imports one
    constant, a directory. *)
Class BuildGraphLib : Type := {
  DEFAULT_DEPENDENCIES_DIR : Path
}.

(** ** Constants of the module *)

Definition DEFAULT_SYNC_STATE_FILE_NAME : string := "sync.toml".
Definition SYNC_STATE : string := "sync_state".
Definition RESOURCE_SYNC_STATES : string := "resource_sync_states".
Definition HASH : string := "hash".
Definition SYNC_TIME : string := "sync_time".
Definition DEPENDENCY_LAYER : string := "dependency_layer".

(** The two renamings of a resource identifier, named after the variables
    that hold their results in the source:
    [resource_id.replace("/", "-")] when writing the document and
    [resource_id.replace("-", "/")] when reading it. *)
Definition resource_id_toml (resource_id : string) : string :=
  replace "/" "-" resource_id.

Definition resource_sync_state_resource_id (resource_id : string) : string :=
  replace "-" "/" resource_id.

(** [SyncState].  [D] is how the [resource_sync_states] dict is held: by
    its contents ([SyncState], what the two document functions read and
    build) or by reference into the heap ([SyncStateRef], the objects a
    [SyncContext] keeps, which may share one dict). *)
Record SyncStateOf (D : Type) : Type := mkSyncState {
  dependency_layer : pyval;
  resource_sync_states : D
}.
Arguments mkSyncState {D} _ _.
Arguments dependency_layer {D} _.
Arguments resource_sync_states {D} _.

Section Model.

Context {DT : DateTimeLib} {TK : TomlkitLib} {BG : BuildGraphLib}.

(** ** The dataclasses *)

Record ResourceSyncState : Type := mkResourceSyncState {
  hash_value : pyval;
  sync_time : datetime
}.

Definition SyncState : Type := SyncStateOf (dict ResourceSyncState).

(** [SyncState.update_resource_sync_state], on the dict it assigns into;
    [utcnow] is the reading of [datetime.utcnow()]. *)
Definition SyncState_update_resource_sync_state
    (records : dict ResourceSyncState) (resource_id hash_value : string)
    (utcnow : datetime) : dict ResourceSyncState :=
  dict_set records resource_id
    (mkResourceSyncState (Some (TStr hash_value)) utcnow).

(** ** SyncState to document *)

(** The table built for one record. *)
Definition resource_sync_state_toml_table (r : ResourceSyncState)
  : result toml :=
  rbind (tomlkit_item (hash_value r)) (fun h =>
  Ok (TTable (dict_set (dict_set [] HASH h)
                SYNC_TIME (TStr (isoformat (sync_time r)))))).

(** The loop over the records, in the order of the dict. *)
Fixpoint resource_sync_states_toml_table
    (records : dict ResourceSyncState) (table : dict toml)
  : result (dict toml) :=
  match records with
  | [] => Ok table
  | (resource_id, r) :: rest =>
      rbind (resource_sync_state_toml_table r) (fun t =>
      resource_sync_states_toml_table rest
        (dict_set table (resource_id_toml resource_id) t))
  end.

(** The leading comment of the document is not part of its mapping and is
    not modelled. *)
Definition _sync_state_to_toml_document (sync_state : SyncState)
  : result toml_document :=
  rbind (tomlkit_item (dependency_layer sync_state)) (fun dl =>
  let sync_state_toml_table := dict_set [] DEPENDENCY_LAYER dl in
  rbind (resource_sync_states_toml_table
           (resource_sync_states sync_state) []) (fun table =>
  Ok (dict_set (dict_set [] SYNC_STATE (TTable sync_state_toml_table))
        RESOURCE_SYNC_STATES (TTable table)))).

(** ** Document to SyncState *)

(** [datetime.fromisoformat(v)]: [TypeError] unless [v] is a string. *)
Definition py_fromisoformat (v : pyval) : result datetime :=
  match v with
  | Some (TStr s) =>
      match fromisoformat s with
      | Some t => Ok t
      | None => Raise ValueError
      end
  | _ => Raise TypeError
  end.

(** The body of the loop for one key of the table. *)
Definition read_resource_sync_state (entry : toml)
  : result ResourceSyncState :=
  rbind (py_get (Some entry) HASH) (fun h =>
  rbind (py_get (Some entry) SYNC_TIME) (fun s =>
  rbind (py_fromisoformat s) (fun t =>
  Ok (mkResourceSyncState h t)))).

Fixpoint read_resource_sync_states
    (table : dict toml) (records : dict ResourceSyncState)
  : result (dict ResourceSyncState) :=
  match table with
  | [] => Ok records
  | (resource_id, entry) :: rest =>
      rbind (read_resource_sync_state entry) (fun r =>
      read_resource_sync_states rest
        (dict_set records (resource_sync_state_resource_id resource_id) r))
  end.

(** [for resource_id in v: v.get(resource_id) ...] on a truthy [v]: a table
    is walked key by key; a string or an array is iterable but has no
    [get]; anything else is not iterable. *)
Definition iterate_resource_sync_states (v : pyval)
  : result (dict ResourceSyncState) :=
  match v with
  | Some (TTable t) => read_resource_sync_states t []
  | Some (TStr _) | Some (TArray _) => Raise AttributeError
  | _ => Raise TypeError
  end.

Definition _toml_document_to_sync_state (toml_document : toml_document)
  : result (option SyncState) :=
  if negb (truthy (Some (TTable toml_document))) then Ok None else
  let sync_state_toml_table := dict_get toml_document SYNC_STATE in
  let resource_sync_states_toml_table :=
    match dict_get toml_document RESOURCE_SYNC_STATES with
    | Some v => Some v
    | None => Some (TTable [])
    end in
  if negb (truthy sync_state_toml_table
           || truthy resource_sync_states_toml_table)
  then Ok None else
  rbind (if truthy resource_sync_states_toml_table
         then iterate_resource_sync_states resource_sync_states_toml_table
         else Ok []) (fun records =>
  rbind (if truthy sync_state_toml_table
         then py_get sync_state_toml_table DEPENDENCY_LAYER
         else Ok (Some (TBool false))) (fun dl =>
  Ok (Some (mkSyncState dl records)))).

(** ** The environment

    The file system as the files that can be opened and read, with their
    text (opening any other path for reading raises [OSError]), and the
    directories that exist; the calls made to [rmtree_if_exists], in order;
    the heap of dict objects, addressed by position; the clock, as the
    readings [datetime.utcnow()] returns one after the other. *)

Definition ref : Type := nat.

Record World : Type := mkWorld {
  files : list (Path * Text);
  dirs : list Path;
  rmtree_calls : list Path;
  heap : list (dict ResourceSyncState);
  clock : nat -> datetime;
  ticks : nat
}.

Fixpoint fs_get (fs : list (Path * Text)) (p : Path) : option Text :=
  match fs with
  | [] => None
  | (q, t) :: fs' => if Path_eqb q p then Some t else fs_get fs' p
  end.

Fixpoint fs_put (fs : list (Path * Text)) (p : Path) (t : Text)
  : list (Path * Text) :=
  match fs with
  | [] => [(p, t)]
  | (q, u) :: fs' =>
      if Path_eqb q p then (q, t) :: fs' else (q, u) :: fs_put fs' p t
  end.

Definition is_dir (w : World) (p : Path) : bool :=
  existsb (Path_eqb p) (dirs w).

Definition heap_get (h : list (dict ResourceSyncState)) (r : ref)
  : dict ResourceSyncState :=
  nth r h [].

(** Assignment into the dict object at [r]; every reference the methods
    hold was allocated, so [r] is in range. *)
Fixpoint heap_set (h : list (dict ResourceSyncState)) (r : ref)
    (d : dict ResourceSyncState) : list (dict ResourceSyncState) :=
  match h, r with
  | [], _ => []
  | _ :: h', O => d :: h'
  | x :: h', S r' => x :: heap_set h' r' d
  end.

Definition SyncStateRef : Type := SyncStateOf ref.

Record SyncContext : Type := mkSyncContext {
  _current_state : SyncStateRef;
  _previous_state : option SyncStateRef;
  _build_dir : Path;
  _cache_dir : Path;
  _file_path : Path
}.

Record St : Type := mkSt {
  self : SyncContext;
  world : World
}.

(** The contents of a [SyncState] object at this moment. *)
Definition contents (w : World) (s : SyncStateRef) : SyncState :=
  mkSyncState (dependency_layer s) (heap_get (heap w) (resource_sync_states s)).

(** ** The monad of the methods *)

Definition M (A : Type) : Type := St -> result A * St.

Definition ret {A} (a : A) : M A := fun st => (Ok a, st).

Definition raise {A} (e : exn) : M A := fun st => (Raise e, st).

Definition bind {A B} (m : M A) (k : A -> M B) : M B :=
  fun st =>
    match m st with
    | (Ok a, st') => k a st'
    | (Raise e, st') => (Raise e, st')
    end.

Definition lift {A} (r : result A) : M A := fun st => (r, st).

(** [try: body except OSError: handler]; what [body] did before it raised
    stays done. *)
Definition try_except_OSError (body handler : M unit) : M unit :=
  fun st =>
    match body st with
    | (Raise e, st') =>
        if is_OSError e then handler st' else (Raise e, st')
    | r => r
    end.

Definition get_self : M SyncContext := fun st => (Ok (self st), st).

Definition get_world : M World := fun st => (Ok (world st), st).

Definition put_self (c : SyncContext) : M unit :=
  fun st => (Ok tt, mkSt c (world st)).

Definition put_world (w : World) : M unit :=
  fun st => (Ok tt, mkSt (self st) w).

End Model.

Notation "x <- m ;; k" := (bind m (fun x => k))
  (at level 61, m at next level, right associativity).
Notation "m ;;; k" := (bind m (fun _ => k))
  (at level 61, right associativity).

Section Methods.

Context {DT : DateTimeLib} {TK : TomlkitLib} {BG : BuildGraphLib}.

(** ** What the methods ask of the environment *)

(** [open(path)] and [file.read()]: [OSError] when there is no such file. *)
Definition open_read (path : Path) : M Text :=
  w <- get_world ;;
  match fs_get (files w) path with
  | Some text => ret text
  | None => raise OSError
  end.

(** [open(path, "w+")]: [OSError] when the directory of the file does not
    exist; otherwise the file is there and empty from this point on. *)
Definition open_write (path : Path) : M unit :=
  w <- get_world ;;
  if is_dir w (Path_parent path)
  then put_world (mkWorld (fs_put (files w) path empty_text) (dirs w)
                    (rmtree_calls w) (heap w) (clock w) (ticks w))
  else raise OSError.

(** [file.write(text)] on the file opened by [open_write]. *)
Definition file_write (path : Path) (text : Text) : M unit :=
  w <- get_world ;;
  put_world (mkWorld (fs_put (files w) path text) (dirs w)
               (rmtree_calls w) (heap w) (clock w) (ticks w)).

(** [datetime.utcnow()] *)
Definition utcnow : M datetime :=
  w <- get_world ;;
  put_world (mkWorld (files w) (dirs w) (rmtree_calls w) (heap w)
               (clock w) (S (ticks w))) ;;;
  ret (clock w (ticks w)).

(** A new dict object holding [d]. *)
Definition heap_alloc (d : dict ResourceSyncState) : M ref :=
  w <- get_world ;;
  put_world (mkWorld (files w) (dirs w) (rmtree_calls w)
               (heap w ++ [d])%list (clock w) (ticks w)) ;;;
  ret (length (heap w)).

Definition heap_load (r : ref) : M (dict ResourceSyncState) :=
  w <- get_world ;;
  ret (heap_get (heap w) r).

Definition heap_store (r : ref) (d : dict ResourceSyncState) : M unit :=
  w <- get_world ;;
  put_world (mkWorld (files w) (dirs w) (rmtree_calls w)
               (heap_set (heap w) r d) (clock w) (ticks w)).

(** Modelled from the spec: [rmtree_if_exists] of
    [samcli.lib.utils.osutils], whose source is not at hand.  Given a
    directory path it removes the directory if present, with what lies
    below it, and never fails on absence. *)
Definition rmtree_if_exists (path : Path) : M unit :=
  w <- get_world ;;
  put_world (mkWorld
               (filter (fun f => negb (Path_within path (fst f))) (files w))
               (filter (fun d => negb (Path_within path d)) (dirs w))
               (rmtree_calls w ++ [path])%list
               (heap w) (clock w) (ticks w)).

(** ** SyncContext *)

(** [SyncContext(dependency_layer, build_dir, cache_dir)]; the paths are
    taken as [Path]s. *)
Definition __init__ (dependency_layer : bool) (build_dir cache_dir : Path)
    (w : World) : St :=
  mkSt
    (mkSyncContext
       (mkSyncState (Some (TBool dependency_layer)) (length (heap w)))
       None
       build_dir
       cache_dir
       (Path_joinpath (Path_parent build_dir) DEFAULT_SYNC_STATE_FILE_NAME))
    (mkWorld (files w) (dirs w) (rmtree_calls w) (heap w ++ [[]])%list
       (clock w) (ticks w)).

Definition _write : M unit :=
  self <- get_self ;;
  open_write (_file_path self) ;;;
  w <- get_world ;;
  toml_document <-
    lift (_sync_state_to_toml_document (contents w (_current_state self))) ;;
  file_write (_file_path self) (dumps toml_document).

(** The [SyncState] object that [_toml_document_to_sync_state] returned:
    its dict is a new object. *)
Definition new_SyncState (s : option SyncState) : M (option SyncStateRef) :=
  match s with
  | None => ret None
  | Some s =>
      r <- heap_alloc (resource_sync_states s) ;;
      ret (Some (mkSyncState (dependency_layer s) r))
  end.

Definition _read : M unit :=
  try_except_OSError
    (self <- get_self ;;
     text <- open_read (_file_path self) ;;
     toml_document <- lift (loads text) ;;
     state <- lift (_toml_document_to_sync_state toml_document) ;;
     previous_state <- new_SyncState state ;;
     put_self (mkSyncContext (_current_state self) previous_state
                 (_build_dir self) (_cache_dir self) (_file_path self)) ;;;
     match previous_state with
     | Some previous =>
         put_self (mkSyncContext
                     (mkSyncState (dependency_layer (_current_state self))
                        (resource_sync_states previous))
                     previous_state
                     (_build_dir self) (_cache_dir self) (_file_path self))
     | None => ret tt
     end)
    (ret tt).

Definition _cleanup_build_folders : M unit :=
  self <- get_self ;;
  rmtree_if_exists (_build_dir self) ;;;
  rmtree_if_exists (_cache_dir self) ;;;
  rmtree_if_exists DEFAULT_DEPENDENCIES_DIR.

Definition __enter__ : M unit :=
  _read ;;;
  self <- get_self ;;
  match _previous_state self with
  | Some previous =>
      if py_ne (dependency_layer previous)
           (dependency_layer (_current_state self))
      then _cleanup_build_folders
      else ret tt
  | None => ret tt
  end.

Definition __exit__ : M unit := _write.

Definition update_resource_sync_state (resource_id hash_value : string)
  : M unit :=
  self <- get_self ;;
  now <- utcnow ;;
  records <- heap_load (resource_sync_states (_current_state self)) ;;
  heap_store (resource_sync_states (_current_state self))
    (SyncState_update_resource_sync_state records resource_id hash_value
       now) ;;;
  _write.

(** An instance of the dataclass [ResourceSyncState] is always true, so
    [if not resource_sync_state] is the test for [None]. *)
Definition get_resource_latest_sync_hash (resource_id : string) : M pyval :=
  self <- get_self ;;
  records <- heap_load (resource_sync_states (_current_state self)) ;;
  match dict_get records resource_id with
  | None => ret None
  | Some resource_sync_state => ret (hash_value resource_sync_state)
  end.

End Methods.

(** ** An implementation of the libraries

    One implementation of each interface, to run the model on concrete
    inputs: naive date-times in the text form [isoformat] writes for them, a
    serializer whose text is the document itself, and the dependencies
    directory [.aws-sam/deps]. *)

Module Naive.

Record fields : Type := mkFields {
  year : Z;
  month : Z;
  day : Z;
  hour : Z;
  minute : Z;
  second : Z;
  microsecond : Z
}.

Definition _is_leap (y : Z) : bool :=
  (y mod 4 =? 0)%Z && (negb (y mod 100 =? 0)%Z || (y mod 400 =? 0)%Z).

Definition _days_in_month (y m : Z) : Z :=
  if (m =? 2)%Z then (if _is_leap y then 29 else 28)%Z
  else if (m =? 4)%Z || (m =? 6)%Z || (m =? 9)%Z || (m =? 11)%Z then 30%Z
  else 31%Z.

Definition between (lo hi z : Z) : bool := (lo <=? z)%Z && (z <=? hi)%Z.

(** The checks of the [datetime] constructor. *)
Definition valid (f : fields) : bool :=
  between 1 9999 (year f) &&
  between 1 12 (month f) &&
  between 1 (_days_in_month (year f) (month f)) (day f) &&
  between 0 23 (hour f) &&
  between 0 59 (minute f) &&
  between 0 59 (second f) &&
  between 0 999999 (microsecond f).

Definition t : Type := { f : fields | valid f = true }.

Definition check (f : fields) : option t :=
  match bool_dec (valid f) true with
  | left ok => Some (exist _ f ok)
  | right _ => None
  end.

Definition digit (d : Z) : ascii := ascii_of_nat (48 + Z.to_nat d).

Definition digit_value (c : ascii) : option Z :=
  let n := nat_of_ascii c in
  if (48 <=? n)%nat && (n <=? 57)%nat
  then Some (Z.of_nat n - 48)%Z
  else None.

(** [z] in [n] decimal digits, as ["%04d"] and the like write it. *)
Fixpoint digits (n : nat) (z : Z) : string :=
  match n with
  | O => ""
  | S n' =>
      String (digit (z / 10 ^ Z.of_nat n'))
        (digits n' (z mod 10 ^ Z.of_nat n'))
  end.

Fixpoint read_digits (n : nat) (s : string) (acc : Z)
  : option (Z * string) :=
  match n with
  | O => Some (acc, s)
  | S n' =>
      match s with
      | EmptyString => None
      | String c s' =>
          match digit_value c with
          | Some d => read_digits n' s' (acc * 10 + d)%Z
          | None => None
          end
      end
  end.

Definition expect (c : ascii) (s : string) : option string :=
  match s with
  | EmptyString => None
  | String c' s' => if Ascii.eqb c' c then Some s' else None
  end.

Definition obind {A B} (o : option A) (k : A -> option B) : option B :=
  match o with
  | Some a => k a
  | None => None
  end.

(** [YYYY-MM-DDTHH:MM:SS], followed by [.ffffff] when the microseconds are
    not zero. *)
Definition isoformat (x : t) : string :=
  let f := proj1_sig x in
  digits 4 (year f) ++ "-" ++ digits 2 (month f) ++ "-" ++
  digits 2 (day f) ++ "T" ++ digits 2 (hour f) ++ ":" ++
  digits 2 (minute f) ++ ":" ++ digits 2 (second f) ++
  (if (microsecond f =? 0)%Z then "" else "." ++ digits 6 (microsecond f)).

(** Reads the two forms above and checks the fields; any other string is
    refused. *)
Definition fromisoformat (s : string) : option t :=
  obind (read_digits 4 s 0) (fun '(y, s) =>
  obind (expect "-" s) (fun s =>
  obind (read_digits 2 s 0) (fun '(m, s) =>
  obind (expect "-" s) (fun s =>
  obind (read_digits 2 s 0) (fun '(d, s) =>
  obind (expect "T" s) (fun s =>
  obind (read_digits 2 s 0) (fun '(hh, s) =>
  obind (expect ":" s) (fun s =>
  obind (read_digits 2 s 0) (fun '(mm, s) =>
  obind (expect ":" s) (fun s =>
  obind (read_digits 2 s 0) (fun '(ss, s) =>
  match s with
  | EmptyString => check (mkFields y m d hh mm ss 0)
  | String _ _ =>
      obind (expect "." s) (fun s =>
      obind (read_digits 6 s 0) (fun '(us, s) =>
      match s with
      | EmptyString => check (mkFields y m d hh mm ss us)
      | String _ _ => None
      end))
  end))))))))))).

End Naive.

#[export] Instance naive_datetime : DateTimeLib := {|
  datetime := Naive.t;
  isoformat := Naive.isoformat;
  fromisoformat := Naive.fromisoformat
|}.

(** The text of a document is the document; the empty file reads as the
    empty document. *)
#[export] Instance structural_tomlkit : TomlkitLib := {|
  Text := toml_document;
  empty_text := [];
  dumps := fun d => d;
  loads := fun text => Ok text
|}.

#[export] Instance aws_sam_build_graph : BuildGraphLib := {|
  DEFAULT_DEPENDENCIES_DIR := [".aws-sam"; "deps"]
|}.

(** ** Vocabulary of the statements *)

Definition is_bool (v : pyval) : bool :=
  match v with
  | Some (TBool _) => true
  | _ => false
  end.

Definition is_str (v : pyval) : bool :=
  match v with
  | Some (TStr _) => true
  | _ => false
  end.

Definition is_some {A} (o : option A) : bool :=
  match o with
  | Some _ => true
  | None => false
  end.

Definition mem (k : string) (l : list string) : bool :=
  existsb (String.eqb k) l.

(** The keys of a dict are distinct. *)
Fixpoint distinct (l : list string) : bool :=
  match l with
  | [] => true
  | k :: l' => negb (mem k l') && distinct l'
  end.

(** Both loops of the module walk a dict, turn each value with [g], which
    may raise, and assign the result under the key renamed by [f]. *)
Fixpoint remap {A B} (f : string -> string) (g : A -> result B)
    (d : dict A) (acc : dict B) : result (dict B) :=
  match d with
  | [] => Ok acc
  | (k, a) :: rest =>
      rbind (g a) (fun b => remap f g rest (dict_set acc (f k) b))
  end.

Section Vocabulary.

Context {DT : DateTimeLib} {TK : TomlkitLib}.

(** A [SyncState] as its annotations describe it: a boolean flag, a string
    hash in every record, and a dict (distinct keys). *)
Definition well_typed (s : SyncState) : bool :=
  is_bool (dependency_layer s) &&
  forallb (fun kr => is_str (hash_value (snd kr))) (resource_sync_states s) &&
  distinct (keys (resource_sync_states s)).

(** The table written for a record whose hash is not [None]. *)
Definition written_entry (r : ResourceSyncState) : toml :=
  TTable [(HASH, match hash_value r with Some h => h | None => TBool false end);
          (SYNC_TIME, TStr (isoformat (sync_time r)))].

(** No identifier of the state contains ["-"]. *)
Definition dash_free (s : SyncState) : bool :=
  forallb (fun kr => negb (contains "-" (fst kr))) (resource_sync_states s).

(** No other identifier of [records] is written under the document key of
    [resource_id]. *)
Definition alone_under_its_key (resource_id : string)
    (records : dict ResourceSyncState) : bool :=
  forallb (fun k => negb (String.eqb (resource_id_toml k)
                            (resource_id_toml resource_id))
                    || String.eqb k resource_id)
    (keys records).

(** The documents the decoder reads without raising: each of the two
    sections, when present and not empty, is a table, and every entry of
    [resource_sync_states] is a table whose [sync_time] is a string that
    [fromisoformat] accepts. *)
Definition entry_readable (entry : toml) : bool :=
  match entry with
  | TTable t =>
      match dict_get t SYNC_TIME with
      | Some (TStr s) => is_some (fromisoformat s)
      | _ => false
      end
  | _ => false
  end.

Definition section_readable (v : pyval) (entry_ok : toml -> bool) : bool :=
  negb (truthy v) ||
  match v with
  | Some (TTable t) => forallb (fun ke => entry_ok (snd ke)) t
  | _ => false
  end.

Definition readable (doc : toml_document) : bool :=
  section_readable (dict_get doc SYNC_STATE) (fun _ => true) &&
  section_readable (dict_get doc RESOURCE_SYNC_STATES) entry_readable.

(** What a fresh load of the state file gives: the decoding of its parsed
    text, and no state when there is no file. *)
Definition stored_state (w : World) (path : Path)
  : result (option SyncState) :=
  match fs_get (files w) path with
  | Some text => rbind (loads text) _toml_document_to_sync_state
  | None => Ok None
  end.

(** The records of the current state and of the previous state, through
    the heap. *)
Definition current_records (st : St) : dict ResourceSyncState :=
  heap_get (heap (world st))
    (resource_sync_states (_current_state (self st))).

Definition previous_records (st : St) : option (dict ResourceSyncState) :=
  option_map (fun p => heap_get (heap (world st)) (resource_sync_states p))
    (_previous_state (self st)).

(** The context and the world after [_read] has loaded [state]. *)
Definition loaded (st : St) (state : option SyncState) : St :=
  let c := self st in
  let w := world st in
  match state with
  | None =>
      mkSt (mkSyncContext (_current_state c) None
              (_build_dir c) (_cache_dir c) (_file_path c)) w
  | Some s =>
      let r := length (heap w) in
      mkSt (mkSyncContext
              (mkSyncState (dependency_layer (_current_state c)) r)
              (Some (mkSyncState (dependency_layer s) r))
              (_build_dir c) (_cache_dir c) (_file_path c))
        (mkWorld (files w) (dirs w) (rmtree_calls w)
           (heap w ++ [resource_sync_states s])%list (clock w) (ticks w))
  end.

(** The dict of the current state is an object of the heap and, like every
    dict, has distinct keys. *)
Definition current_state_ok (st : St) : bool :=
  (resource_sync_states (_current_state (self st))
   <? length (heap (world st)))%nat &&
  distinct (keys (current_records st)).

End Vocabulary.

(** ** Sample data

    States, documents and file systems on which the statements below are
    run, with the implementation of the libraries given above. *)

Module Sample.

Definition build_dir : Path := [".aws-sam"; "build"].
Definition cache_dir : Path := [".aws-sam"; "cache"].
Definition state_file : Path := [".aws-sam"; "sync.toml"].

Definition noon : datetime :=
  exist _ (Naive.mkFields 2023 2 28 12 0 0 0) eq_refl.

Definition later : datetime :=
  exist _ (Naive.mkFields 2024 2 29 23 59 7 1500) eq_refl.

(** A nested-stack resource and a plain one. *)
Definition state : SyncState :=
  mkSyncState (Some (TBool true))
    [("Stack/Function", mkResourceSyncState (Some (TStr "abc")) noon);
     ("Layer", mkResourceSyncState (Some (TStr "def")) later)].

(** An identifier with a ["-"]. *)
Definition dashed_state : SyncState :=
  mkSyncState (Some (TBool false))
    [("my-function", mkResourceSyncState (Some (TStr "abc")) noon)].

Definition document : toml_document :=
  [(SYNC_STATE, TTable [(DEPENDENCY_LAYER, TBool true)]);
   (RESOURCE_SYNC_STATES,
    TTable
      [("Stack-Function",
        TTable [(HASH, TStr "abc");
                (SYNC_TIME, TStr "2023-02-28T12:00:00")]);
       ("Layer",
        TTable [(HASH, TStr "def");
                (SYNC_TIME, TStr "2024-02-29T23:59:07.001500")])])].

(** An entry without [sync_time], and one whose [sync_time] is no date. *)
Definition document_without_sync_time : toml_document :=
  [(RESOURCE_SYNC_STATES,
    TTable [("Function", TTable [(HASH, TStr "abc")])])].

Definition document_with_bad_sync_time : toml_document :=
  [(RESOURCE_SYNC_STATES,
    TTable [("Function",
             TTable [(HASH, TStr "abc"); (SYNC_TIME, TStr "yesterday")])])].

(** An entry without [hash], and a document with neither section. *)
Definition document_without_hash : toml_document :=
  [(RESOURCE_SYNC_STATES,
    TTable [("Function",
             TTable [(SYNC_TIME, TStr "2023-02-28T12:00:00")])])].

Definition document_without_sections : toml_document :=
  [("version", TInt 1)].

Definition directories : list Path :=
  [[]; [".aws-sam"]; build_dir; cache_dir; DEFAULT_DEPENDENCIES_DIR].

(** No state file yet. *)
Definition first_run : World :=
  mkWorld [] directories [] [] (fun _ => later) 0.

(** The state file of an earlier session that ran with the dependency
    layer. *)
Definition next_run : World :=
  mkWorld [(state_file, document)] directories [] [] (fun _ => later) 0.

Definition broken_run : World :=
  mkWorld [(state_file, document_without_sync_time)] directories [] []
    (fun _ => later) 0.

End Sample.

(** Further documents and file systems: the document of the dashed state,
    a [sync_state] table without the flag, a state file whose entry has no
    [hash], and a project directory that does not exist. *)

Module Scenario.

Import Sample.

Definition dashed_document : toml_document :=
  [(SYNC_STATE, TTable [(DEPENDENCY_LAYER, TBool false)]);
   (RESOURCE_SYNC_STATES,
    TTable
      [("my-function",
        TTable [(HASH, TStr "abc");
                (SYNC_TIME, TStr "2023-02-28T12:00:00")])])].

Definition document_without_flag : toml_document :=
  [(SYNC_STATE, TTable [("version", TInt 1)]);
   (RESOURCE_SYNC_STATES,
    TTable
      [("Function",
        TTable [(HASH, TStr "abc");
                (SYNC_TIME, TStr "2023-02-28T12:00:00")])])].

(** A document with a section and keys the module does not know. *)
Definition document_with_extras : toml_document :=
  [("version", TInt 1);
   (SYNC_STATE, TTable [(DEPENDENCY_LAYER, TBool true); ("note", TStr "x")]);
   (RESOURCE_SYNC_STATES,
    TTable
      [("Stack-Function",
        TTable [(HASH, TStr "abc");
                (SYNC_TIME, TStr "2023-02-28T12:00:00");
                ("size", TInt 3)]);
       ("Layer",
        TTable [(SYNC_TIME, TStr "2024-02-29T23:59:07.001500");
                (HASH, TStr "def")])])].

Definition state_without_flag : SyncState :=
  mkSyncState None
    [("Function", mkResourceSyncState (Some (TStr "abc")) noon)].

Definition flagless_run : World :=
  mkWorld [(state_file, document_without_flag)] directories [] []
    (fun _ => later) 0.

Definition hashless_run : World :=
  mkWorld [(state_file, document_without_hash)] directories [] []
    (fun _ => later) 0.

Definition no_directory_run : World :=
  mkWorld [] [] [] [] (fun _ => later) 0.

End Scenario.

(** * Properties *)

(** ** Results *)

Lemma both_Ok {A B C} (ra : result A) (rb : result B) (k : A -> B -> C) :
  (exists a, ra = Ok a) /\ (exists b, rb = Ok b)
  <-> exists c, rbind rb (fun b => rbind ra (fun a => Ok (k a b))) = Ok c.
Proof.
  destruct ra as [a|e1]; destruct rb as [b|e2]; simpl.
  - split; [eauto | intros _; split; eauto].
  - split; [intros [_ [b Hb]] | intros [c Hc]]; discriminate.
  - split; [intros [[a Ha] _] | intros [c Hc]]; discriminate.
  - split; [intros [[a Ha] _] | intros [c Hc]]; discriminate.
Qed.

(** ** Strings *)

Lemma replace_back (a b : ascii) (s : string) :
  contains b s = false -> replace b a (replace a b s) = s.
Proof.
  induction s as [|c s IH]; simpl; intros H; [reflexivity|].
  apply orb_false_iff in H. destruct H as [Hc Hs].
  rewrite (IH Hs). f_equal.
  destruct (Ascii.eqb c a) eqn:Eca.
  - rewrite Ascii.eqb_refl. apply Ascii.eqb_eq in Eca. now subst.
  - now rewrite Hc.
Qed.

Lemma replace_absent (a b : ascii) (s : string) :
  contains a s = false -> replace a b s = s.
Proof.
  induction s as [|c s IH]; simpl; intros H; [reflexivity|].
  apply orb_false_iff in H. destruct H as [Hc Hs].
  now rewrite Hc, (IH Hs).
Qed.

Lemma contains_replace (a b : ascii) (s : string) :
  a <> b -> contains a (replace a b s) = false.
Proof.
  intros Hab. induction s as [|c s IH]; simpl; [reflexivity|].
  rewrite IH, orb_false_r.
  destruct (Ascii.eqb c a) eqn:Eca; [|exact Eca].
  apply Ascii.eqb_neq. congruence.
Qed.

Lemma resource_id_back (resource_id : string) :
  contains "-" resource_id = false ->
  resource_sync_state_resource_id (resource_id_toml resource_id)
  = resource_id.
Proof. apply replace_back. Qed.

Lemma resource_id_toml_back (key : string) :
  contains "/" key = false ->
  resource_id_toml (resource_sync_state_resource_id key) = key.
Proof. apply replace_back. Qed.

Lemma resource_id_toml_no_slash (resource_id : string) :
  contains "/" (resource_id_toml resource_id) = false.
Proof. apply contains_replace. discriminate. Qed.

(** A document key is stable: read and written again, it is the same
    key. *)
Lemma document_key_is_stable (resource_id : string) :
  resource_id_toml
    (resource_sync_state_resource_id (resource_id_toml resource_id))
  = resource_id_toml resource_id.
Proof. apply resource_id_toml_back, resource_id_toml_no_slash. Qed.

(** ** Dicts *)

Lemma mem_In (k : string) (l : list string) : mem k l = true <-> In k l.
Proof.
  unfold mem. rewrite existsb_exists. split.
  - intros [x [Hin Heq]]. apply String.eqb_eq in Heq. now subst.
  - intros Hin. exists k. split; [exact Hin | apply String.eqb_refl].
Qed.

Lemma mem_not_In (k : string) (l : list string) :
  mem k l = false <-> ~ In k l.
Proof.
  rewrite <- mem_In. destruct (mem k l); split; congruence.
Qed.

Lemma distinct_NoDup (l : list string) : distinct l = true <-> NoDup l.
Proof.
  induction l as [|k l IH]; simpl.
  - split; [constructor | reflexivity].
  - rewrite andb_true_iff, negb_true_iff, mem_not_In, IH. split.
    + intros [H1 H2]. now constructor.
    + intros H. inversion H; subst. now split.
Qed.

Lemma distinct_map (f : string -> string) (l : list string) :
  (forall x y, In x l -> In y l -> f x = f y -> x = y) ->
  distinct l = true -> distinct (map f l) = true.
Proof.
  intros Hinj. rewrite !distinct_NoDup. intros Hnd.
  induction Hnd as [|x l Hx Hnd IH]; simpl; constructor.
  - rewrite in_map_iff. intros [y [Hxy Hy]].
    apply Hinj in Hxy; [subst; contradiction | now right | now left].
  - apply IH. intros a b Ha Hb. apply Hinj; now right.
Qed.

Section Dict.

Context {V : Type}.
Implicit Types (d : dict V) (k : string) (v : V).

Lemma dict_get_set_same d k v : dict_get (dict_set d k v) k = Some v.
Proof.
  induction d as [|[k' v'] d IH]; simpl.
  - now rewrite String.eqb_refl.
  - destruct (String.eqb k' k) eqn:E; simpl; now rewrite E.
Qed.

Lemma dict_get_set_other d k k' v :
  k <> k' -> dict_get (dict_set d k v) k' = dict_get d k'.
Proof.
  intros Hne. induction d as [|[k0 v0] d IH]; simpl.
  - apply String.eqb_neq in Hne. now rewrite Hne.
  - destruct (String.eqb k0 k) eqn:E; simpl; [|now rewrite IH].
    apply String.eqb_eq in E. subst k0.
    apply String.eqb_neq in Hne. now rewrite Hne.
Qed.

Lemma dict_get_mem d k : dict_get d k = None <-> mem k (keys d) = false.
Proof.
  induction d as [|[k' v'] d IH]; simpl; [tauto|].
  rewrite (String.eqb_sym k k').
  destruct (String.eqb k' k); simpl; [split; discriminate | exact IH].
Qed.

Lemma dict_set_fresh d k v :
  mem k (keys d) = false -> dict_set d k v = (d ++ [(k, v)])%list.
Proof.
  induction d as [|[k' v'] d IH]; simpl; [reflexivity|].
  rewrite (String.eqb_sym k k').
  destruct (String.eqb k' k); simpl; [discriminate|].
  intros H. now rewrite IH.
Qed.

Lemma keys_dict_set d k v :
  keys (dict_set d k v)
  = if mem k (keys d) then keys d else (keys d ++ [k])%list.
Proof.
  induction d as [|[k' v'] d IH]; simpl; [reflexivity|].
  rewrite (String.eqb_sym k k').
  destruct (String.eqb k' k); simpl; [reflexivity|].
  rewrite IH. now destruct (mem k (keys d)).
Qed.

Lemma distinct_dict_set d k v :
  distinct (keys d) = true -> distinct (keys (dict_set d k v)) = true.
Proof.
  rewrite keys_dict_set. destruct (mem k (keys d)) eqn:E; [tauto|].
  rewrite !distinct_NoDup. intros Hnd.
  apply NoDup_app; [exact Hnd | repeat constructor; intros [] |].
  intros x Hx [Hk|[]]. subst x.
  apply mem_not_In in E. contradiction.
Qed.

Lemma In_dict_get d k v :
  distinct (keys d) = true -> In (k, v) d -> dict_get d k = Some v.
Proof.
  induction d as [|[k' v'] d IH]; simpl; [tauto|].
  rewrite andb_true_iff, negb_true_iff. intros [Hk Hd] [Heq|Hin].
  - inversion Heq; subst. now rewrite String.eqb_refl.
  - destruct (String.eqb k' k) eqn:E; [|now apply IH].
    apply String.eqb_eq in E. subst k'.
    apply mem_not_In in Hk. exfalso. apply Hk.
    change (In (fst (k, v)) (map fst d)). now apply in_map.
Qed.

Lemma dict_get_In d k v : dict_get d k = Some v -> In (k, v) d.
Proof.
  induction d as [|[k' v'] d IH]; simpl; [discriminate|].
  destruct (String.eqb k' k) eqn:E; [|auto].
  apply String.eqb_eq in E. intros H. inversion H; subst. now left.
Qed.

Lemma In_dict_set d k v k' v' :
  In (k', v') (dict_set d k v) -> In (k', v') d \/ (k', v') = (k, v).
Proof.
  induction d as [|[k0 v0] d IH]; simpl.
  - intros [H|[]]. now right.
  - destruct (String.eqb k0 k) eqn:E; simpl.
    + apply String.eqb_eq in E. subst k0.
      intros [H|H]; [right; congruence | left; now right].
    + intros [H|H]; [left; now left|].
      destruct (IH H) as [H'|H']; [left; now right | now right].
Qed.

End Dict.

(** ** The loop shared by the two directions *)

Section Remap.

Context {A B : Type} (f : string -> string) (g : A -> result B).
Implicit Types (d : dict A) (acc out : dict B).

Lemma remap_fresh d acc (l : dict B) :
  Forall2 (fun ka kb => fst kb = f (fst ka) /\ g (snd ka) = Ok (snd kb)) d l ->
  distinct (keys l) = true ->
  (forall k, In k (keys l) -> mem k (keys acc) = false) ->
  remap f g d acc = Ok (acc ++ l)%list.
Proof.
  intros Hl. revert acc.
  induction Hl as [|[k a] [k' b] d l [Hk Hg] Hl IH]; simpl; intros acc Hd Hacc.
  - now rewrite app_nil_r.
  - simpl in Hk, Hg. subst k'.
    apply andb_true_iff in Hd. destruct Hd as [Hk Hd].
    apply negb_true_iff in Hk.
    rewrite Hg. simpl.
    rewrite dict_set_fresh by (apply Hacc; now left).
    rewrite IH.
    + now rewrite <- app_assoc.
    + exact Hd.
    + intros k' Hin. unfold keys. rewrite map_app. simpl.
      unfold mem. rewrite existsb_app. simpl. rewrite orb_false_r.
      apply orb_false_iff. split; [apply Hacc; now right|].
      apply String.eqb_neq. intros Heq.
      apply mem_not_In in Hk. apply Hk. now rewrite <- Heq.
Qed.

Lemma remap_frame d acc out key :
  remap f g d acc = Ok out ->
  (forall k, In k (keys d) -> f k <> key) ->
  dict_get out key = dict_get acc key.
Proof.
  revert acc. induction d as [|[k a] d IH]; simpl; intros acc Hrun Hkey.
  - congruence.
  - destruct (g a) as [b|e]; simpl in Hrun; [|discriminate].
    rewrite (IH _ Hrun) by (intros k' Hin; apply Hkey; now right).
    apply dict_get_set_other. apply Hkey. now left.
Qed.

Lemma remap_get d acc out k a :
  remap f g d acc = Ok out ->
  distinct (keys d) = true ->
  In (k, a) d ->
  (forall k', In k' (keys d) -> f k' = f k -> k' = k) ->
  exists b, g a = Ok b /\ dict_get out (f k) = Some b.
Proof.
  revert acc. induction d as [|[k0 a0] d IH]; simpl; [tauto|].
  intros acc Hrun Hd Hin Halone.
  apply andb_true_iff in Hd. destruct Hd as [Hk0 Hd].
  apply negb_true_iff, mem_not_In in Hk0.
  destruct (g a0) as [b0|e] eqn:Eg; simpl in Hrun; [|discriminate].
  destruct Hin as [Heq|Hin].
  - inversion Heq; subst k0 a0. exists b0. split; [exact Eg|].
    rewrite (remap_frame _ _ _ _ Hrun).
    + apply dict_get_set_same.
    + intros k' Hk' Hf. apply Halone in Hf; [|now right].
      subst k'. contradiction.
  - apply (IH _ Hrun Hd Hin).
    intros k' Hk'. apply Halone. now right.
Qed.

Lemma remap_In d acc out key b :
  remap f g d acc = Ok out ->
  In (key, b) out ->
  In (key, b) acc \/ exists k a, In (k, a) d /\ key = f k /\ g a = Ok b.
Proof.
  revert acc. induction d as [|[k0 a0] d IH]; simpl; intros acc Hrun Hin.
  - left. congruence.
  - destruct (g a0) as [b0|e] eqn:Eg; simpl in Hrun; [|discriminate].
    destruct (IH _ Hrun Hin) as [H|[k [a [H1 [H2 H3]]]]].
    + apply In_dict_set in H. destruct H as [H|H]; [now left|].
      right. exists k0, a0. inversion H; subst. auto.
    + right. exists k, a. auto.
Qed.

Lemma remap_distinct d acc out :
  remap f g d acc = Ok out ->
  distinct (keys acc) = true -> distinct (keys out) = true.
Proof.
  revert acc. induction d as [|[k0 a0] d IH]; simpl; intros acc Hrun Hacc.
  - congruence.
  - destruct (g a0) as [b0|e]; simpl in Hrun; [|discriminate].
    apply (IH _ Hrun). now apply distinct_dict_set.
Qed.

Lemma remap_total d acc :
  (forall k a, In (k, a) d -> exists b, g a = Ok b) ->
  exists out, remap f g d acc = Ok out.
Proof.
  revert acc. induction d as [|[k0 a0] d IH]; simpl; intros acc Hg.
  - now exists acc.
  - destruct (Hg k0 a0) as [b Hb]; [now left|]. rewrite Hb. simpl.
    apply IH. intros k a Hin. apply (Hg k). now right.
Qed.

Lemma remap_each d acc out k a :
  remap f g d acc = Ok out -> In (k, a) d -> exists b, g a = Ok b.
Proof.
  revert acc. induction d as [|[k0 a0] d IH]; simpl; [tauto|].
  intros acc Hrun Hin.
  destruct (g a0) as [b0|e] eqn:Eg; simpl in Hrun; [|discriminate].
  destruct Hin as [Heq|Hin]; [|now apply (IH _ Hrun)].
  inversion Heq; subst. now exists b0.
Qed.

End Remap.

Section Documents.

Context {DT : DateTimeLib} {TK : TomlkitLib}.

Lemma resource_sync_states_toml_table_remap records table :
  resource_sync_states_toml_table records table
  = remap resource_id_toml resource_sync_state_toml_table records table.
Proof.
  revert table. induction records as [|[k r] records IH]; simpl; intros table.
  - reflexivity.
  - destruct (resource_sync_state_toml_table r); simpl; [apply IH|reflexivity].
Qed.

Lemma read_resource_sync_states_remap table records :
  read_resource_sync_states table records
  = remap resource_sync_state_resource_id read_resource_sync_state
      table records.
Proof.
  revert records. induction table as [|[k e] table IH]; simpl; intros records.
  - reflexivity.
  - destruct (read_resource_sync_state e); simpl; [apply IH|reflexivity].
Qed.

Lemma resource_sync_state_toml_table_Ok r :
  hash_value r <> None ->
  resource_sync_state_toml_table r = Ok (written_entry r).
Proof.
  unfold resource_sync_state_toml_table, written_entry.
  destruct (hash_value r); [reflexivity | congruence].
Qed.

Lemma resource_sync_state_toml_table_inv r e :
  resource_sync_state_toml_table r = Ok e ->
  hash_value r <> None /\ e = written_entry r.
Proof.
  unfold resource_sync_state_toml_table, written_entry.
  destruct (hash_value r); simpl; intros H; inversion H.
  split; [discriminate | reflexivity].
Qed.

Lemma read_written_entry `{!DateTimeLaws DT} r :
  hash_value r <> None ->
  read_resource_sync_state (written_entry r) = Ok r.
Proof.
  intros Hh. unfold read_resource_sync_state, written_entry, py_fromisoformat.
  simpl. rewrite fromisoformat_isoformat.
  destruct r as [[h|] t]; simpl in *; [reflexivity | congruence].
Qed.

(** The document of a state, once its values are known to convert. *)
Lemma _sync_state_to_toml_document_Ok (s : SyncState) dl table :
  dependency_layer s = Some dl ->
  resource_sync_states_toml_table (resource_sync_states s) [] = Ok table ->
  _sync_state_to_toml_document s
  = Ok [(SYNC_STATE, TTable [(DEPENDENCY_LAYER, dl)]);
        (RESOURCE_SYNC_STATES, TTable table)].
Proof.
  intros Hdl Ht. unfold _sync_state_to_toml_document.
  rewrite Hdl. simpl. rewrite Ht. reflexivity.
Qed.

Lemma _sync_state_to_toml_document_inv (s : SyncState) doc :
  _sync_state_to_toml_document s = Ok doc ->
  exists dl table,
    dependency_layer s = Some dl /\
    resource_sync_states_toml_table (resource_sync_states s) [] = Ok table /\
    doc = [(SYNC_STATE, TTable [(DEPENDENCY_LAYER, dl)]);
           (RESOURCE_SYNC_STATES, TTable table)].
Proof.
  unfold _sync_state_to_toml_document.
  destruct (dependency_layer s) as [dl|]; simpl; [|discriminate].
  destruct (resource_sync_states_toml_table _ _) as [table|]; simpl;
    [|discriminate].
  intros H. inversion H. now exists dl, table.
Qed.

(** Reading a document that has both sections, the first one not empty. *)
Lemma _toml_document_to_sync_state_written dl table :
  _toml_document_to_sync_state
    [(SYNC_STATE, TTable [(DEPENDENCY_LAYER, dl)]);
     (RESOURCE_SYNC_STATES, TTable table)]
  = rbind (read_resource_sync_states table []) (fun records =>
    Ok (Some (mkSyncState (Some dl) records))).
Proof.
  unfold _toml_document_to_sync_state. simpl.
  destruct table; reflexivity.
Qed.

End Documents.

(** ** Identifiers and documents *)

Section RoundTrip.

Context {DT : DateTimeLib} {TK : TomlkitLib}.

(** C1, as amended: for every resource identifier that contains no ["-"]
    (it may contain ["/"]), renaming it for the document ([replace "/" by
    "-"]) and renaming the result back ([replace "-" by "/"]) returns the
    identifier. *)
Theorem resource_id_round_trip (resource_id : string) :
  contains "-" resource_id = false ->
  resource_sync_state_resource_id (resource_id_toml resource_id)
  = resource_id.
Proof.
  unfold resource_sync_state_resource_id, resource_id_toml.
  induction resource_id as [|c s IH]; cbn [replace contains]; intros Hdash.
  - reflexivity.
  - apply orb_false_iff in Hdash. destruct Hdash as [Hc Hs].
    rewrite (IH Hs). f_equal.
    destruct (Ascii.eqb c "/") eqn:Eslash.
    + apply Ascii.eqb_eq in Eslash. now subst c.
    + now rewrite Hc.
Qed.

(** The condition cannot be weakened: an identifier that comes back has no
    ["-"]. *)
Lemma round_trip_needs_no_dash (resource_id : string) :
  resource_sync_state_resource_id (resource_id_toml resource_id)
  = resource_id ->
  contains "-" resource_id = false.
Proof.
  intros H. rewrite <- H. apply contains_replace. discriminate.
Qed.

Lemma well_typed_inv (s : SyncState) :
  well_typed s = true ->
  (exists b, dependency_layer s = Some (TBool b)) /\
  (forall k r, In (k, r) (resource_sync_states s) -> hash_value r <> None) /\
  distinct (keys (resource_sync_states s)) = true.
Proof.
  unfold well_typed. rewrite !andb_true_iff, forallb_forall.
  intros [[Hb Hr] Hd]. repeat split; [| |exact Hd].
  - destruct (dependency_layer s) as [[b| | | |]|]; try discriminate.
    now exists b.
  - intros k r Hin. specialize (Hr _ Hin). simpl in Hr.
    destruct (hash_value r); [discriminate | discriminate].
Qed.

Lemma dash_free_inv (s : SyncState) :
  dash_free s = true ->
  forall k, In k (keys (resource_sync_states s)) -> contains "-" k = false.
Proof.
  unfold dash_free. rewrite forallb_forall. intros H k Hin.
  apply in_map_iff in Hin. destruct Hin as [[k' r] [Hk Hin]].
  simpl in Hk. subst k'. apply negb_true_iff. apply (H _ Hin).
Qed.

(** C2, as amended: for every SyncState with a boolean flag, string hashes
    and no identifier containing ["-"] (the records may be empty), the state
    has a document, and decoding that document gives back the state: the
    same identifiers, each with the same hash and the same timestamp. *)
Theorem sync_state_round_trip `{!DateTimeLaws DT} (s : SyncState) :
  well_typed s = true ->
  dash_free s = true ->
  exists doc,
    _sync_state_to_toml_document s = Ok doc /\
    _toml_document_to_sync_state doc = Ok (Some s).
Proof.
  intros Hty Hdash.
  destruct (well_typed_inv s Hty) as [[b Hb] [Hh Hd]].
  pose proof (dash_free_inv s Hdash) as Hk.
  destruct s as [dl records]. simpl in *. subst dl.
  set (table := map (fun kr : string * ResourceSyncState =>
                       (resource_id_toml (fst kr), written_entry (snd kr)))
                  records).
  assert (Henc : resource_sync_states_toml_table records [] = Ok table).
  { rewrite resource_sync_states_toml_table_remap.
    apply (remap_fresh _ _ records [] table); [| |reflexivity].
    - subst table. clear - Hh.
      induction records as [|[k r] records IH]; simpl; constructor.
      + simpl. split; [reflexivity|].
        apply resource_sync_state_toml_table_Ok. apply (Hh k). now left.
      + apply IH. intros k' r' Hin. apply (Hh k'). now right.
    - subst table. unfold keys. rewrite map_map. simpl.
      rewrite <- (map_map fst resource_id_toml).
      apply distinct_map; [|exact Hd].
      intros x y Hx Hy Hxy.
      rewrite <- (resource_id_back x), <- (resource_id_back y); auto.
      now rewrite Hxy. }
  exists [(SYNC_STATE, TTable [(DEPENDENCY_LAYER, TBool b)]);
          (RESOURCE_SYNC_STATES, TTable table)].
  split.
  - apply _sync_state_to_toml_document_Ok; [reflexivity | exact Henc].
  - rewrite _toml_document_to_sync_state_written.
    rewrite read_resource_sync_states_remap.
    rewrite (remap_fresh _ _ table [] records); [reflexivity| |exact Hd|reflexivity].
    subst table. clear - Hh Hk DateTimeLaws0.
    induction records as [|[k r] records IH]; simpl; constructor.
    + simpl. split.
      * symmetry. apply resource_id_back, Hk. now left.
      * apply read_written_entry. apply (Hh k). now left.
    + apply IH.
      * intros k' r' Hin. apply (Hh k'). now right.
      * intros k' Hin. apply Hk. now right.
Qed.

(** The condition cannot be weakened: a state that comes back has no
    identifier with a ["-"]. *)
Lemma round_trip_needs_dash_free `{!DateTimeLaws DT} (s : SyncState) doc :
  _sync_state_to_toml_document s = Ok doc ->
  _toml_document_to_sync_state doc = Ok (Some s) ->
  dash_free s = true.
Proof.
  intros Henc Hdec.
  destruct (_sync_state_to_toml_document_inv s doc Henc)
    as [dl [table [_ [_ Hdoc]]]].
  subst doc. rewrite _toml_document_to_sync_state_written in Hdec.
  destruct (read_resource_sync_states table []) as [records|e] eqn:Hread;
    [|discriminate].
  simpl in Hdec. injection Hdec as Hs. subst s.
  unfold dash_free. cbn [resource_sync_states].
  apply forallb_forall. intros [k r] Hin. cbn [fst].
  rewrite read_resource_sync_states_remap in Hread.
  destruct (remap_In _ _ _ _ _ _ _ Hread Hin) as [[]|[k0 [e [_ [Hk _]]]]].
  subst k. apply negb_true_iff, contains_replace. discriminate.
Qed.

Lemma entry_readable_iff (entry : toml) :
  entry_readable entry = true
  <-> exists r, read_resource_sync_state entry = Ok r.
Proof.
  unfold entry_readable, read_resource_sync_state, py_fromisoformat.
  destruct entry as [b|z|s|l|t]; simpl;
    try (split; [discriminate | intros [r Hr]; discriminate]).
  destruct (dict_get t SYNC_TIME) as [[b|z|s|l|t']|]; simpl;
    try (split; [discriminate | intros [r Hr]; discriminate]).
  destruct (fromisoformat s) as [x|]; simpl.
  - split; [eauto | reflexivity].
  - split; [discriminate | intros [r Hr]; discriminate].
Qed.

Lemma read_resource_sync_states_total table records :
  forallb (fun ke => entry_readable (snd ke)) table = true
  <-> exists out, read_resource_sync_states table records = Ok out.
Proof.
  rewrite read_resource_sync_states_remap, forallb_forall. split.
  - intros H. apply remap_total. intros k e Hin.
    apply entry_readable_iff. apply (H _ Hin).
  - intros [out Hout] [k e] Hin. simpl.
    apply entry_readable_iff. apply (remap_each _ _ _ _ _ _ _ Hout Hin).
Qed.

Lemma records_part_readable (v : pyval) :
  section_readable v entry_readable = true
  <-> exists out,
        (if truthy v then iterate_resource_sync_states v else Ok []) = Ok out.
Proof.
  unfold section_readable.
  destruct (truthy v) eqn:Etr; simpl; [|split; eauto].
  destruct v as [[b|z|s|l|t]|]; simpl;
    try (split; [discriminate | intros [r Hr]; discriminate]).
  apply read_resource_sync_states_total.
Qed.

Lemma dependency_layer_part_readable (v : pyval) :
  section_readable v (fun _ => true) = true
  <-> exists out,
        (if truthy v then py_get v DEPENDENCY_LAYER
         else Ok (Some (TBool false))) = Ok out.
Proof.
  unfold section_readable.
  destruct (truthy v) eqn:Etr; simpl; [|split; eauto].
  destruct v as [[b|z|s|l|t]|]; simpl;
    try (split; [discriminate | intros [r Hr]; discriminate]).
  split; [eauto|]. intros _. apply forallb_forall. reflexivity.
Qed.

(** C5, as amended: decoding returns (a state or null) instead of raising
    on every document in which each of the two sections, when present and
    not empty, is a table, and every entry of [resource_sync_states] is a
    table whose [sync_time] is text that [fromisoformat] accepts.  Missing
    sections and a missing [hash] key are among these. *)
Theorem decoding_returns (doc : toml_document) :
  readable doc = true ->
  exists state, _toml_document_to_sync_state doc = Ok state.
Proof.
  unfold readable, _toml_document_to_sync_state.
  rewrite andb_true_iff.
  rewrite records_part_readable, dependency_layer_part_readable.
  destruct doc as [|kv doc']; [simpl; eauto|].
  set (doc := kv :: doc'). change (truthy (Some (TTable doc))) with true.
  cbv beta iota. change (negb true) with false. cbv iota.
  set (sst := dict_get doc SYNC_STATE).
  destruct (dict_get doc RESOURCE_SYNC_STATES) as [x|]; cbv iota;
    [set (rsst := Some x)
    |change (truthy (Some (TTable []))) with false;
     change (truthy None) with false].
  all: destruct (truthy sst); try destruct (truthy rsst); cbn [negb orb].
  all: first [ apply (proj1 (both_Ok _ _ _)) | solve [eauto] ].
Qed.

(** The decoder returns on no other document. *)
Lemma returns_only_if_readable (doc : toml_document) state :
  _toml_document_to_sync_state doc = Ok state -> readable doc = true.
Proof.
  intros Hdec. assert (H : exists s, _toml_document_to_sync_state doc = Ok s)
    by eauto.
  clear Hdec. revert H.
  unfold readable, _toml_document_to_sync_state.
  rewrite andb_true_iff.
  rewrite records_part_readable, dependency_layer_part_readable.
  destruct doc as [|kv doc']; [simpl; eauto|].
  set (doc := kv :: doc'). change (truthy (Some (TTable doc))) with true.
  cbv beta iota. change (negb true) with false. cbv iota.
  set (sst := dict_get doc SYNC_STATE).
  destruct (dict_get doc RESOURCE_SYNC_STATES) as [x|]; cbv iota;
    [set (rsst := Some x)
    |change (truthy (Some (TTable []))) with false;
     change (truthy None) with false].
  all: destruct (truthy sst); try destruct (truthy rsst); cbn [negb orb].
  all: first [ apply (proj2 (both_Ok _ _ _)) | solve [eauto] ].
Qed.

End RoundTrip.

Section WrittenDocuments.

Context {DT : DateTimeLib} {TK : TomlkitLib} `{!DateTimeLaws DT}.

(** What is read from the document of a state. *)
Lemma decode_written_document (s : SyncState) doc :
  _sync_state_to_toml_document s = Ok doc ->
  exists table records,
    resource_sync_states_toml_table (resource_sync_states s) [] = Ok table /\
    read_resource_sync_states table [] = Ok records /\
    is_some (dict_get doc SYNC_STATE) = true /\
    is_some (dict_get doc RESOURCE_SYNC_STATES) = true /\
    _toml_document_to_sync_state doc
    = Ok (Some (mkSyncState (dependency_layer s) records)).
Proof.
  intros Henc.
  destruct (_sync_state_to_toml_document_inv s doc Henc)
    as [dl [table [Hdl [Htable Hdoc]]]].
  subst doc. rewrite _toml_document_to_sync_state_written.
  destruct (remap_total resource_sync_state_resource_id
              read_resource_sync_state table []) as [records Hrecords].
  { intros k e Hin.
    rewrite resource_sync_states_toml_table_remap in Htable.
    destruct (remap_In _ _ _ _ _ _ _ Htable Hin) as [[]|[k0 [r [_ [_ Hr]]]]].
    apply resource_sync_state_toml_table_inv in Hr. destruct Hr as [Hh He].
    subst e. exists r. now apply read_written_entry. }
  rewrite <- read_resource_sync_states_remap in Hrecords.
  exists table, records. rewrite Hrecords, Hdl. simpl. auto.
Qed.

(** A record that is alone under its document key, and whose identifier
    has no ["-"], is read back from the document. *)
Lemma record_read_back (s : SyncState) doc resource_id r :
  _sync_state_to_toml_document s = Ok doc ->
  distinct (keys (resource_sync_states s)) = true ->
  dict_get (resource_sync_states s) resource_id = Some r ->
  contains "-" resource_id = false ->
  alone_under_its_key resource_id (resource_sync_states s) = true ->
  exists s',
    _toml_document_to_sync_state doc = Ok (Some s') /\
    dict_get (resource_sync_states s') resource_id = Some r.
Proof.
  intros Henc Hd Hget Hdash Halone.
  destruct (decode_written_document s doc Henc)
    as [table [records [Htable [Hrecords [_ [_ Hdec]]]]]].
  exists (mkSyncState (dependency_layer s) records).
  split; [exact Hdec|]. simpl.
  rewrite resource_sync_states_toml_table_remap in Htable.
  rewrite read_resource_sync_states_remap in Hrecords.
  assert (Halone' : forall k, In k (keys (resource_sync_states s)) ->
            resource_id_toml k = resource_id_toml resource_id ->
            k = resource_id).
  { unfold alone_under_its_key in Halone.
    rewrite forallb_forall in Halone. intros k Hin Heq.
    specialize (Halone k Hin). apply orb_true_iff in Halone.
    destruct Halone as [H|H].
    - apply negb_true_iff, String.eqb_neq in H. contradiction.
    - now apply String.eqb_eq in H. }
  destruct (remap_get _ _ _ _ _ _ _ Htable Hd (dict_get_In _ _ _ Hget) Halone')
    as [e [He Hte]].
  apply resource_sync_state_toml_table_inv in He. destruct He as [Hh He].
  subst e.
  destruct (remap_get _ _ _ _ _ _ _ Hrecords
              (remap_distinct _ _ _ _ _ Htable eq_refl)
              (dict_get_In _ _ _ Hte)) as [r' [Hr' Hgr']].
  - intros k' Hin Heq.
    rewrite resource_id_back in Heq by exact Hdash.
    apply in_map_iff in Hin. destruct Hin as [[k'' e] [Hk'' Hin]].
    simpl in Hk''. subst k''.
    destruct (remap_In _ _ _ _ _ _ _ Htable Hin) as [[]|[k0 [r0 [_ [Hk0 _]]]]].
    subst k'. rewrite <- Heq.
    symmetry. apply resource_id_toml_back, resource_id_toml_no_slash.
  - rewrite read_written_entry in Hr' by exact Hh.
    inversion Hr'; subst r'.
    now rewrite resource_id_back in Hgr' by exact Hdash.
Qed.

End WrittenDocuments.

(** ** The implementation of the libraries obeys the laws *)

Module NaiveFacts.

Import Naive.
Local Open Scope Z_scope.

Lemma digit_value_digit (d : Z) :
  0 <= d < 10 -> digit_value (digit d) = Some d.
Proof.
  intros H.
  assert (Hd : d = 0 \/ d = 1 \/ d = 2 \/ d = 3 \/ d = 4 \/
               d = 5 \/ d = 6 \/ d = 7 \/ d = 8 \/ d = 9) by lia.
  repeat destruct Hd as [Hd|Hd]; subst d; reflexivity.
Qed.

Lemma read_digits_digits (n : nat) (z : Z) (rest : string) (acc : Z) :
  0 <= z < 10 ^ Z.of_nat n ->
  read_digits n (digits n z ++ rest) acc
  = Some (acc * 10 ^ Z.of_nat n + z, rest).
Proof.
  revert z acc. induction n as [|n IH]; intros z acc Hz.
  - simpl in *. f_equal. f_equal. lia.
  - rewrite Nat2Z.inj_succ, Z.pow_succ_r in Hz by lia.
    assert (Hp : 0 < 10 ^ Z.of_nat n) by (apply Z.pow_pos_nonneg; lia).
    cbn [digits read_digits append].
    rewrite digit_value_digit.
    2:{ split; [apply Z.div_pos; lia | apply Z.div_lt_upper_bound; lia]. }
    rewrite IH by (apply Z.mod_pos_bound; lia).
    f_equal. f_equal.
    rewrite Nat2Z.inj_succ, Z.pow_succ_r by lia.
    pose proof (Z.div_mod z (10 ^ Z.of_nat n)). nia.
Qed.

Lemma append_empty (s : string) : (s ++ "")%string = s.
Proof. induction s as [|c s IH]; simpl; [reflexivity | now rewrite IH]. Qed.

Lemma check_valid (f : fields) (ok : valid f = true) :
  check f = Some (exist _ f ok).
Proof.
  unfold check. destruct (bool_dec (valid f) true) as [ok'|no].
  - f_equal. f_equal. apply UIP_dec, bool_dec.
  - contradiction.
Qed.

Lemma between_inv (lo hi z : Z) : between lo hi z = true -> lo <= z <= hi.
Proof. unfold between. lia. Qed.

Lemma days_in_month_le (y m : Z) : _days_in_month y m <= 31.
Proof.
  unfold _days_in_month.
  destruct (m =? 2); [destruct (_is_leap y); lia|].
  destruct ((m =? 4) || (m =? 6) || (m =? 9) || (m =? 11)); lia.
Qed.

Lemma naive_fromisoformat_isoformat (x : t) : fromisoformat (isoformat x) = Some x.
Proof.
  destruct x as [f ok]. pose proof ok as Hv.
  unfold valid in Hv. rewrite !andb_true_iff in Hv.
  destruct Hv as [[[[[[Hy Hm] Hd] Hh] Hmi] Hs] Hus].
  apply between_inv in Hy, Hm, Hd, Hh, Hmi, Hs, Hus.
  pose proof (days_in_month_le (year f) (month f)) as Hdim.
  unfold fromisoformat, isoformat. cbn [proj1_sig].
  repeat (rewrite read_digits_digits by (simpl; lia);
          cbn [obind expect append Ascii.eqb Bool.eqb]).
  destruct f as [y m d hh mm ss us]. cbn [year month day hour minute second microsecond] in *.
  destruct (us =? 0) eqn:Eus.
  - apply Z.eqb_eq in Eus. subst us. cbn [append]. simpl Z.add. apply check_valid.
  - cbn [append expect Ascii.eqb Bool.eqb obind].
    rewrite <- (append_empty (digits 6 us)).
    rewrite read_digits_digits by (simpl; lia).
    cbn [obind]. simpl Z.add. apply check_valid.
Qed.

End NaiveFacts.

#[export] Instance naive_datetime_laws : DateTimeLaws naive_datetime.
Proof. constructor. exact NaiveFacts.naive_fromisoformat_isoformat. Qed.

#[export] Instance structural_tomlkit_laws : TomlkitLaws structural_tomlkit.
Proof. constructor. reflexivity. Qed.

(** ** Paths, files and the heap *)

Lemma Path_eqb_eq (p q : Path) : Path_eqb p q = true <-> p = q.
Proof.
  revert q. induction p as [|a p IH]; intros [|b q]; simpl;
    try (split; [discriminate | discriminate]); [tauto|].
  rewrite andb_true_iff, String.eqb_eq, IH.
  split; [intros [H1 H2]; congruence | intros H; inversion H; auto].
Qed.

Lemma Path_eqb_refl (p : Path) : Path_eqb p p = true.
Proof. now apply Path_eqb_eq. Qed.

Lemma Path_within_refl (p : Path) : Path_within p p = true.
Proof.
  induction p as [|a p IH]; simpl; [reflexivity|].
  now rewrite String.eqb_refl.
Qed.

Lemma existsb_Path_eqb_filter (keep : Path -> bool) (p : Path) (l : list Path) :
  existsb (Path_eqb p) (filter keep l)
  = existsb (Path_eqb p) l && keep p.
Proof.
  induction l as [|q l IH]; simpl; [reflexivity|].
  destruct (Path_eqb p q) eqn:E.
  - apply Path_eqb_eq in E. subst q. destruct (keep p) eqn:K; simpl.
    + now rewrite Path_eqb_refl.
    + rewrite IH. apply andb_false_r.
  - destruct (keep q); simpl; [rewrite E; simpl|]; exact IH.
Qed.

Section Store.

Context {DT : DateTimeLib} {TK : TomlkitLib}.

Lemma fs_get_put (fs : list (Path * Text)) (p : Path) (t : Text) :
  fs_get (fs_put fs p t) p = Some t.
Proof.
  induction fs as [|[q u] fs IH]; simpl.
  - now rewrite Path_eqb_refl.
  - destruct (Path_eqb q p) eqn:E; simpl; now rewrite E.
Qed.

Lemma heap_get_alloc (h : list (dict ResourceSyncState)) d :
  heap_get (h ++ [d]) (length h) = d.
Proof.
  unfold heap_get. rewrite app_nth2 by lia. now rewrite Nat.sub_diag.
Qed.

Lemma heap_get_alloc_old (h : list (dict ResourceSyncState)) d r :
  r < length h -> heap_get (h ++ [d]) r = heap_get h r.
Proof. intros H. unfold heap_get. now apply app_nth1. Qed.

Lemma heap_get_set (h : list (dict ResourceSyncState)) r d :
  r < length h -> heap_get (heap_set h r d) r = d.
Proof.
  revert r. induction h as [|x h IH]; simpl; intros r Hr; [lia|].
  destruct r as [|r]; simpl; [reflexivity|]. apply IH. lia.
Qed.

Lemma length_heap_set (h : list (dict ResourceSyncState)) r d :
  length (heap_set h r d) = length h.
Proof.
  revert r. induction h as [|x h IH]; simpl; intros r; [reflexivity|].
  destruct r; simpl; [reflexivity | now rewrite IH].
Qed.

End Store.

(** ** The methods, run *)

Ltac unfold_M :=
  unfold try_except_OSError, open_read, open_write, file_write, utcnow,
    new_SyncState, heap_alloc, heap_load, heap_store, rmtree_if_exists,
    bind, ret, raise, lift, get_self, get_world, put_self, put_world.

Section Runs.

Context {DT : DateTimeLib} {TK : TomlkitLib} {BG : BuildGraphLib}.

Lemma _write_run (st : St) :
  _write st
  = let path := _file_path (self st) in
    let w := world st in
    if is_dir w (Path_parent path) then
      match _sync_state_to_toml_document
              (contents w (_current_state (self st))) with
      | Ok doc =>
          (Ok tt,
           mkSt (self st)
             (mkWorld
                (fs_put (fs_put (files w) path empty_text) path (dumps doc))
                (dirs w) (rmtree_calls w) (heap w) (clock w) (ticks w)))
      | Raise e =>
          (Raise e,
           mkSt (self st)
             (mkWorld (fs_put (files w) path empty_text)
                (dirs w) (rmtree_calls w) (heap w) (clock w) (ticks w)))
      end
    else (Raise OSError, st).
Proof.
  destruct st as [c w]. unfold _write. unfold_M. simpl.
  destruct (is_dir w (Path_parent (_file_path c))); [|reflexivity].
  unfold contents. simpl.
  destruct (_sync_state_to_toml_document _); reflexivity.
Qed.

Lemma update_resource_sync_state_run (resource_id hash_value : string) (st : St) :
  update_resource_sync_state resource_id hash_value st
  = let w := world st in
    let r := resource_sync_states (_current_state (self st)) in
    _write
      (mkSt (self st)
         (mkWorld (files w) (dirs w) (rmtree_calls w)
            (heap_set (heap w) r
               (dict_set (heap_get (heap w) r) resource_id
                  (mkResourceSyncState (Some (TStr hash_value))
                     (clock w (ticks w)))))
            (clock w) (S (ticks w)))).
Proof. destruct st as [c w]. reflexivity. Qed.

Lemma _read_absent (st : St) :
  fs_get (files (world st)) (_file_path (self st)) = None ->
  _read st = (Ok tt, st).
Proof.
  destruct st as [c w]. simpl. intros H.
  unfold _read. unfold_M. simpl. now rewrite H.
Qed.

Lemma _read_present (st : St) text state :
  fs_get (files (world st)) (_file_path (self st)) = Some text ->
  rbind (loads text) _toml_document_to_sync_state = Ok state ->
  _read st = (Ok tt, loaded st state).
Proof.
  destruct st as [c w]. simpl. intros Hf Hs.
  unfold _read. unfold_M. simpl. rewrite Hf. simpl.
  destruct (loads text) as [doc|e]; simpl in Hs; [|discriminate].
  rewrite Hs. destruct state as [s|]; reflexivity.
Qed.

End Runs.

Section Sessions.

Context {DT : DateTimeLib} {TK : TomlkitLib} {BG : BuildGraphLib}.

Lemma _cleanup_build_folders_run (st : St) :
  exists w',
    _cleanup_build_folders st = (Ok tt, mkSt (self st) w') /\
    heap w' = heap (world st) /\
    rmtree_calls w'
    = (rmtree_calls (world st)
       ++ [_build_dir (self st); _cache_dir (self st);
           DEFAULT_DEPENDENCIES_DIR])%list /\
    forall p,
      is_dir w' p
      = is_dir (world st) p &&
        negb (Path_within (_build_dir (self st)) p) &&
        negb (Path_within (_cache_dir (self st)) p) &&
        negb (Path_within DEFAULT_DEPENDENCIES_DIR p).
Proof.
  destruct st as [c w]. eexists. split; [reflexivity|]. simpl.
  split; [reflexivity|]. split; [now rewrite <- !app_assoc|].
  intros p. unfold is_dir. simpl.
  now rewrite !existsb_Path_eqb_filter.
Qed.

Lemma __enter___run (st : St) :
  __enter__ st
  = match _read st with
    | (Ok _, st1) =>
        match _previous_state (self st1) with
        | Some previous =>
            if py_ne (dependency_layer previous)
                 (dependency_layer (_current_state (self st1)))
            then _cleanup_build_folders st1
            else (Ok tt, st1)
        | None => (Ok tt, st1)
        end
    | (Raise e, st1) => (Raise e, st1)
    end.
Proof.
  unfold __enter__. unfold_M.
  destruct (_read st) as [[u|e] st1]; [|reflexivity].
  destruct (_previous_state (self st1)); [|reflexivity].
  destruct (py_ne _ _); reflexivity.
Qed.

Lemma _read_keeps (st : St) :
  let st' := snd (_read st) in
  dependency_layer (_current_state (self st'))
  = dependency_layer (_current_state (self st)) /\
  _build_dir (self st') = _build_dir (self st) /\
  _cache_dir (self st') = _cache_dir (self st) /\
  _file_path (self st') = _file_path (self st).
Proof.
  destruct st as [c w].
  unfold _read. unfold_M. simpl.
  destruct (fs_get (files w) (_file_path c)) as [text|]; simpl; [|auto].
  destruct (loads text) as [doc|e]; simpl.
  - destruct (_toml_document_to_sync_state doc) as [[s|]|e]; simpl; auto.
    destruct (is_OSError e); simpl; auto.
  - destruct (is_OSError e); simpl; auto.
Qed.

Lemma __enter___keeps_dependency_layer (st : St) :
  dependency_layer (_current_state (self (snd (__enter__ st))))
  = dependency_layer (_current_state (self st)).
Proof.
  rewrite __enter___run.
  destruct (_read_keeps st) as [Hdl _].
  destruct (_read st) as [[u|e] st1]; simpl in *; [|exact Hdl].
  destruct (_previous_state (self st1)) as [p|]; [|exact Hdl].
  destruct (py_ne _ _); [|exact Hdl].
  destruct (_cleanup_build_folders_run st1) as [w' [Hrun _]].
  now rewrite Hrun.
Qed.

Lemma stored_state_read (st : St) state :
  stored_state (world st) (_file_path (self st)) = Ok state ->
  _previous_state (self st) = None ->
  _read st = (Ok tt, loaded st state).
Proof.
  unfold stored_state. intros Hs Hp.
  destruct (fs_get (files (world st)) (_file_path (self st))) as [text|] eqn:Hf.
  - now apply (_read_present st text).
  - inversion Hs; subst state. rewrite (_read_absent st Hf).
    destruct st as [[cur prev b c f] w]. simpl in Hp. subst prev. reflexivity.
Qed.

Lemma get_resource_latest_sync_hash_run (resource_id : string) (st : St) :
  get_resource_latest_sync_hash resource_id st
  = (Ok match dict_get (current_records st) resource_id with
        | Some resource_sync_state => hash_value resource_sync_state
        | None => None
        end,
     st).
Proof.
  destruct st as [c w].
  unfold get_resource_latest_sync_hash, current_records. unfold_M. simpl.
  destruct (dict_get _ resource_id); reflexivity.
Qed.

Lemma __init___fresh (flag : bool) (build_dir cache_dir : Path) (w : World) :
  let st := __init__ flag build_dir cache_dir w in
  _previous_state (self st) = None /\
  current_records st = [] /\
  dependency_layer (_current_state (self st)) = Some (TBool flag) /\
  current_state_ok st = true.
Proof.
  cbv zeta. unfold current_state_ok, current_records, __init__.
  cbn [self world heap _current_state _previous_state resource_sync_states
       dependency_layer].
  rewrite heap_get_alloc, length_app. simpl.
  repeat split. apply andb_true_iff. split; [|reflexivity].
  apply Nat.ltb_lt. lia.
Qed.

(** C9: for every resource identifier, [get_resource_latest_sync_hash]
    returns the hash held by the record of the current state for it, and
    [None] when the current state has no such record; it never raises, and
    it leaves the object, the heap and the files as they were. *)
Theorem get_resource_latest_sync_hash_returns (resource_id : string) (st : St) :
  get_resource_latest_sync_hash resource_id st
  = (Ok match dict_get (current_records st) resource_id with
        | Some resource_sync_state => hash_value resource_sync_state
        | None => None
        end,
     st).
Proof.
  destruct st as [c w].
  unfold get_resource_latest_sync_hash, current_records. unfold_M.
  cbn [self world].
  destruct (dict_get _ resource_id) as [resource_sync_state|]; reflexivity.
Qed.

End Sessions.

Section Start.

Context {DT : DateTimeLib} {TK : TomlkitLib} {BG : BuildGraphLib}.

Lemma stored_state___init__ (flag : bool) (build_dir cache_dir : Path)
    (w : World) (path : Path) :
  stored_state (world (__init__ flag build_dir cache_dir w)) path
  = stored_state w path.
Proof. reflexivity. Qed.

Lemma current_records_loaded (st : St) (s : SyncState) :
  current_records (loaded st (Some s)) = resource_sync_states s.
Proof.
  unfold current_records, loaded.
  cbn [self world heap _current_state resource_sync_states].
  apply heap_get_alloc.
Qed.

(** C6: a store is constructed and started.  If the state file decodes to
    a previous state, its records become the records of the current state
    and each of them can be queried; if, moreover, its dependency_layer
    differs from the flag given at construction, [rmtree_if_exists] is
    called once on each of build_dir, cache_dir and the dependencies
    directory, in this order, whether or not they exist, and none of the
    three is a directory when the start returns; if it does not differ,
    nothing is removed.  If there is no previous state, nothing is removed.
    The start returns in every case. *)
Theorem mode_switch_cleanup (flag : bool) (build_dir cache_dir : Path)
    (w : World) (state : option SyncState) :
  let st := __init__ flag build_dir cache_dir w in
  stored_state w (_file_path (self st)) = Ok state ->
  exists st',
    __enter__ st = (Ok tt, st') /\
    match state with
    | Some previous =>
        current_records st' = resource_sync_states previous /\
        (forall resource_id r,
            dict_get (resource_sync_states previous) resource_id = Some r ->
            get_resource_latest_sync_hash resource_id st'
            = (Ok (hash_value r), st')) /\
        if py_ne (dependency_layer previous) (Some (TBool flag))
        then
          rmtree_calls (world st')
          = (rmtree_calls w
             ++ [build_dir; cache_dir; DEFAULT_DEPENDENCIES_DIR])%list /\
          is_dir (world st') build_dir = false /\
          is_dir (world st') cache_dir = false /\
          is_dir (world st') DEFAULT_DEPENDENCIES_DIR = false
        else
          rmtree_calls (world st') = rmtree_calls w /\
          dirs (world st') = dirs w /\
          files (world st') = files w
    | None =>
        rmtree_calls (world st') = rmtree_calls w /\
        dirs (world st') = dirs w /\
        files (world st') = files w
    end.
Proof.
  intros st Hs.
  destruct (__init___fresh flag build_dir cache_dir w) as [Hp [_ [Hdl _]]].
  fold st in Hp, Hdl.
  rewrite <- (stored_state___init__ flag build_dir cache_dir w) in Hs.
  fold st in Hs.
  pose proof (stored_state_read st state Hs Hp) as Hread.
  rewrite __enter___run, Hread.
  destruct state as [previous|].
  - assert (Hquery : forall st', self st' = self (loaded st (Some previous)) ->
              heap (world st') = heap (world (loaded st (Some previous))) ->
              current_records st' = resource_sync_states previous /\
              forall resource_id r,
                dict_get (resource_sync_states previous) resource_id = Some r ->
                get_resource_latest_sync_hash resource_id st'
                = (Ok (hash_value r), st')).
    { intros st' Hself Hheap.
      assert (Hc : current_records st' = resource_sync_states previous).
      { rewrite <- (current_records_loaded st previous).
        unfold current_records. now rewrite Hself, Hheap. }
      split; [exact Hc|]. intros resource_id r Hr.
      rewrite get_resource_latest_sync_hash_run, Hc, Hr. reflexivity. }
    cbn [loaded self _previous_state _current_state dependency_layer].
    change (dependency_layer (_current_state (self st)))
      with (Some (TBool flag)).
    destruct (py_ne (dependency_layer previous) (Some (TBool flag))).
    + destruct (_cleanup_build_folders_run (loaded st (Some previous)))
        as [w' [Hrun [Hheap [Hcalls Hdirs]]]].
      exists (mkSt (self (loaded st (Some previous))) w').
      split; [exact Hrun|].
      destruct (Hquery (mkSt (self (loaded st (Some previous))) w')
                  eq_refl Hheap) as [Hc Hq].
      split; [exact Hc|]. split; [exact Hq|].
      cbn [world]. split; [exact Hcalls|].
      change (_build_dir (self (loaded st (Some previous)))) with build_dir
        in Hdirs.
      change (_cache_dir (self (loaded st (Some previous)))) with cache_dir
        in Hdirs.
      repeat split; rewrite Hdirs, Path_within_refl; cbn [negb];
        rewrite ?andb_false_r; reflexivity.
    + exists (loaded st (Some previous)). split; [reflexivity|].
      destruct (Hquery (loaded st (Some previous)) eq_refl eq_refl)
        as [Hc Hq].
      repeat split; assumption || reflexivity.
  - exists (loaded st None). split; [reflexivity|].
    repeat split; reflexivity.
Qed.

Lemma __enter___after_read (st : St) state :
  _read st = (Ok tt, loaded st state) ->
  exists st',
    __enter__ st = (Ok tt, st') /\
    self st' = self (loaded st state) /\
    heap (world st') = heap (world (loaded st state)).
Proof.
  intros Hread. rewrite __enter___run, Hread.
  destruct (_previous_state (self (loaded st state))) as [p|];
    [|now exists (loaded st state)].
  destruct (py_ne _ _); [|now exists (loaded st state)].
  destruct (_cleanup_build_folders_run (loaded st state))
    as [w' [Hrun [Hheap _]]].
  exists (mkSt (self (loaded st state)) w'). auto.
Qed.

(** C7: a store is constructed and started while the state file cannot be
    read (there is no such file).  The start returns without raising and
    changes nothing: previous_state is null, the records of the current
    state are empty, and nothing is removed; this for either value of the
    flag. *)
Theorem start_without_state_file (flag : bool) (build_dir cache_dir : Path)
    (w : World) :
  let st := __init__ flag build_dir cache_dir w in
  fs_get (files w) (_file_path (self st)) = None ->
  __enter__ st = (Ok tt, st) /\
  _previous_state (self st) = None /\
  current_records st = [] /\
  rmtree_calls (world st) = rmtree_calls w /\
  dirs (world st) = dirs w.
Proof.
  intros st Hf.
  destruct (__init___fresh flag build_dir cache_dir w) as [Hp [Hc _]].
  fold st in Hp, Hc.
  rewrite __enter___run, (_read_absent st Hf), Hp. auto.
Qed.

(** C8: a store is constructed with a flag and started, whatever the state
    file holds and however the start ends.  The dependency_layer of the
    current state is the flag given at construction; when a previous state
    was loaded, the current state is that flag with the records of the
    previous state. *)
Theorem start_keeps_dependency_layer (flag : bool)
    (build_dir cache_dir : Path) (w : World) :
  let st := __init__ flag build_dir cache_dir w in
  let st' := snd (__enter__ st) in
  dependency_layer (_current_state (self st')) = Some (TBool flag) /\
  forall previous,
    stored_state w (_file_path (self st)) = Ok (Some previous) ->
    contents (world st') (_current_state (self st'))
    = mkSyncState (Some (TBool flag)) (resource_sync_states previous).
Proof.
  intros st st'. split.
  - unfold st'. now rewrite __enter___keeps_dependency_layer.
  - intros previous Hs.
    destruct (__init___fresh flag build_dir cache_dir w) as [Hp _].
    fold st in Hp.
    rewrite <- (stored_state___init__ flag build_dir cache_dir w) in Hs.
    fold st in Hs.
    destruct (__enter___after_read st _ (stored_state_read st _ Hs Hp))
      as [st1 [Hrun [Hself Hheap]]].
    unfold st'. rewrite Hrun. cbn [snd]. unfold contents.
    rewrite Hself, Hheap.
    cbn [loaded self world heap _current_state dependency_layer
         resource_sync_states].
    now rewrite heap_get_alloc.
Qed.

End Start.

Section Updates.

Context {DT : DateTimeLib} {TK : TomlkitLib} {BG : BuildGraphLib}.

Lemma _write_keeps (st : St) :
  self (snd (_write st)) = self st /\
  heap (world (snd (_write st))) = heap (world st).
Proof.
  rewrite _write_run. cbv zeta.
  destruct (is_dir _ _); [|auto].
  destruct (_sync_state_to_toml_document _); auto.
Qed.

Lemma _write_Ok `{!TomlkitLaws TK} (st st' : St) :
  _write st = (Ok tt, st') ->
  exists doc,
    _sync_state_to_toml_document
      (contents (world st) (_current_state (self st))) = Ok doc /\
    fs_get (files (world st')) (_file_path (self st)) = Some (dumps doc) /\
    stored_state (world st') (_file_path (self st))
    = _toml_document_to_sync_state doc.
Proof.
  rewrite _write_run. cbv zeta.
  destruct (is_dir _ _); [|discriminate].
  destruct (_sync_state_to_toml_document _) as [doc|e]; [|discriminate].
  intros H. inversion H. exists doc. split; [reflexivity|].
  unfold stored_state. cbn [world files].
  rewrite fs_get_put, loads_dumps. auto.
Qed.

Lemma alone_under_its_key_set resource_id r
    (records : list (string * ResourceSyncState)) :
  alone_under_its_key resource_id records = true ->
  alone_under_its_key resource_id (dict_set records resource_id r) = true.
Proof.
  unfold alone_under_its_key. rewrite keys_dict_set.
  destruct (mem resource_id (keys records)); [tauto|].
  intros H. rewrite forallb_app, H. simpl.
  now rewrite !String.eqb_refl.
Qed.

Lemma current_state_ok_inv (st : St) :
  current_state_ok st = true ->
  resource_sync_states (_current_state (self st)) < length (heap (world st))
  /\ distinct (keys (current_records st)) = true.
Proof.
  unfold current_state_ok. rewrite andb_true_iff, Nat.ltb_lt. tauto.
Qed.

(** C3, as amended: for every resource identifier that contains no ["-"]
    and that no other identifier of the current state shares its document
    key with, and every hash: when [update_resource_sync_state] returns, a
    fresh load of the state file gives a state that has, for the
    identifier, the record with this hash and the time of the update. *)
Theorem update_is_written_through `{!DateTimeLaws DT} `{!TomlkitLaws TK}
    (resource_id hash_value : string) (st st' : St) :
  current_state_ok st = true ->
  contains "-" resource_id = false ->
  alone_under_its_key resource_id (current_records st) = true ->
  update_resource_sync_state resource_id hash_value st = (Ok tt, st') ->
  exists s,
    stored_state (world st') (_file_path (self st)) = Ok (Some s) /\
    dict_get (resource_sync_states s) resource_id
    = Some (mkResourceSyncState (Some (TStr hash_value))
              (clock (world st) (ticks (world st)))).
Proof.
  intros Hok Hdash Halone Hrun.
  destruct (current_state_ok_inv st Hok) as [Hr Hd].
  rewrite update_resource_sync_state_run in Hrun. cbv zeta in Hrun.
  destruct (_write_Ok _ _ Hrun) as [doc [Hdoc [_ Hstored]]].
  cbn [self world] in Hdoc, Hstored. rewrite Hstored.
  unfold contents in Hdoc. cbn [heap] in Hdoc.
  rewrite heap_get_set in Hdoc by exact Hr.
  fold (current_records st) in Hdoc.
  apply (record_read_back _ _ _ _ Hdoc); cbn [resource_sync_states].
  - now apply distinct_dict_set.
  - apply dict_get_set_same.
  - exact Hdash.
  - now apply alone_under_its_key_set.
Qed.

(** After a start that loaded a previous state, previous_state and
    current_state hold one dict: an update is seen through both. *)
Lemma previous_records_after_update (flag : bool)
    (build_dir cache_dir : Path) (w : World) (previous : SyncState)
    (resource_id hash_value : string) :
  let st0 := __init__ flag build_dir cache_dir w in
  stored_state w (_file_path (self st0)) = Ok (Some previous) ->
  let st1 := snd (__enter__ st0) in
  let st2 := snd (update_resource_sync_state resource_id hash_value st1) in
  (exists p,
      _previous_state (self st1) = Some p /\
      _previous_state (self st2) = Some p /\
      dependency_layer p = dependency_layer previous /\
      resource_sync_states p
      = resource_sync_states (_current_state (self st1))) /\
  previous_records st1 = Some (resource_sync_states previous) /\
  previous_records st2
  = Some (dict_set (resource_sync_states previous) resource_id
            (mkResourceSyncState (Some (TStr hash_value))
               (clock (world st1) (ticks (world st1))))).
Proof.
  intros st0 Hs st1 st2.
  destruct (__init___fresh flag build_dir cache_dir w) as [Hp _].
  fold st0 in Hp.
  rewrite <- (stored_state___init__ flag build_dir cache_dir w) in Hs.
  fold st0 in Hs.
  destruct (__enter___after_read st0 _ (stored_state_read st0 _ Hs Hp))
    as [st1' [Hrun [Hself Hheap]]].
  assert (Hst1 : st1 = st1') by (unfold st1; now rewrite Hrun).
  clearbody st1. subst st1'. clear Hrun.
  unfold st2. rewrite update_resource_sync_state_run. cbv zeta.
  match goal with
  | |- context [_write ?x] => destruct (_write_keeps x) as [Hself2 Hheap2]
  end.
  cbn [self world heap] in Hself2, Hheap2.
  unfold previous_records. rewrite Hself2, Hheap2, Hself, Hheap.
  cbn [loaded self world heap _previous_state _current_state
       resource_sync_states dependency_layer option_map].
  split; [eexists; repeat split|].
  split.
  - now rewrite heap_get_alloc.
  - rewrite heap_get_set by (rewrite length_app; simpl; lia).
    now rewrite heap_get_alloc.
Qed.

(** C4, as amended: a store is constructed and started, and a previous
    state is loaded.  For every identifier and hash,
    [update_resource_sync_state] leaves previous_state the same object with
    the same dependency_layer, and leaves its record for every other
    identifier as it was (present with the same hash and time, or absent). *)
Theorem update_keeps_rest_of_previous_state (flag : bool)
    (build_dir cache_dir : Path) (w : World) (previous : SyncState)
    (resource_id hash_value : string) :
  let st0 := __init__ flag build_dir cache_dir w in
  stored_state w (_file_path (self st0)) = Ok (Some previous) ->
  let st1 := snd (__enter__ st0) in
  let st2 := snd (update_resource_sync_state resource_id hash_value st1) in
  exists p records1 records2,
    _previous_state (self st1) = Some p /\
    _previous_state (self st2) = Some p /\
    dependency_layer p = dependency_layer previous /\
    previous_records st1 = Some records1 /\
    previous_records st2 = Some records2 /\
    records1 = resource_sync_states previous /\
    forall other,
      other <> resource_id ->
      dict_get records2 other = dict_get records1 other.
Proof.
  intros st0 Hs st1 st2.
  destruct (previous_records_after_update flag build_dir cache_dir w previous
              resource_id hash_value Hs)
    as [[p [Hp1 [Hp2 [Hdl _]]]] [Hr1 Hr2]].
  fold st0 st1 in Hp1, Hp2, Hr1, Hr2. fold st2 in Hp2, Hr2.
  exists p. eexists. eexists.
  repeat (split; [eassumption || reflexivity|]).
  intros other Hother. apply dict_get_set_other. congruence.
Qed.

Lemma well_typed_document (s : SyncState) :
  well_typed s = true -> exists doc, _sync_state_to_toml_document s = Ok doc.
Proof.
  intros Hty. destruct (well_typed_inv s Hty) as [[b Hb] [Hh _]].
  destruct (remap_total resource_id_toml resource_sync_state_toml_table
              (resource_sync_states s) []) as [table Htable].
  { intros k r Hin. exists (written_entry r).
    apply resource_sync_state_toml_table_Ok. eauto. }
  rewrite <- resource_sync_states_toml_table_remap in Htable.
  eexists. apply (_sync_state_to_toml_document_Ok s _ _ Hb Htable).
Qed.

(** C10: every SyncState with a boolean flag and string hashes, also one
    without records, has a document; the document has both top-level
    sections and decodes to a state, not to null.  So when [__exit__] or
    [update_resource_sync_state] has returned, a store started later on the
    same state file has a previous state. *)
Theorem written_state_is_a_previous_state
    `{!DateTimeLaws DT} `{!TomlkitLaws TK} :
  (forall s : SyncState,
      well_typed s = true ->
      exists doc s',
        _sync_state_to_toml_document s = Ok doc /\
        is_some (dict_get doc SYNC_STATE) = true /\
        is_some (dict_get doc RESOURCE_SYNC_STATES) = true /\
        _toml_document_to_sync_state doc = Ok (Some s')) /\
  (forall (st st' : St) (later : SyncContext),
      (__exit__ st = (Ok tt, st') \/
       exists resource_id hash_value,
         update_resource_sync_state resource_id hash_value st
         = (Ok tt, st')) ->
      _file_path later = _file_path (self st) ->
      exists st'' previous,
        __enter__ (mkSt later (world st')) = (Ok tt, st'') /\
        _previous_state (self st'') = Some previous).
Proof.
  split.
  - intros s Hty. destruct (well_typed_document s Hty) as [doc Hdoc].
    destruct (decode_written_document s doc Hdoc)
      as [table [records [_ [_ [H1 [H2 Hdec]]]]]].
    exists doc. eexists. eauto.
  - intros st st' later Hrun Hpath.
    assert (Hw : exists x, _write x = (Ok tt, st') /\
                           _file_path (self x) = _file_path (self st)).
    { destruct Hrun as [Hrun | [resource_id [hash_value Hrun]]].
      - exists st. auto.
      - rewrite update_resource_sync_state_run in Hrun. cbv zeta in Hrun.
        eexists. split; [exact Hrun | reflexivity]. }
    destruct Hw as [x [Hx Hxpath]].
    destruct (_write_Ok _ _ Hx) as [doc [Hdoc [Hfile _]]].
    destruct (decode_written_document _ doc Hdoc)
      as [table [records [_ [_ [_ [_ Hdec]]]]]].
    rewrite Hxpath, <- Hpath in Hfile.
    destruct (__enter___after_read (mkSt later (world st')) _
                (_read_present (mkSt later (world st')) _ _ Hfile
                   ltac:(rewrite loads_dumps; exact Hdec)))
      as [st'' [Hrun' [Hself _]]].
    exists st''. eexists. split; [exact Hrun'|].
    rewrite Hself. reflexivity.
Qed.

End Updates.

Section Returns.

Context {DT : DateTimeLib} {TK : TomlkitLib} {BG : BuildGraphLib}.

(** The update returns when the directory of the state file exists and no
    value of the current state is [None]. *)
Lemma update_resource_sync_state_returns (resource_id new_hash : string)
    (st : St) :
  current_state_ok st = true ->
  is_dir (world st) (Path_parent (_file_path (self st))) = true ->
  is_some (dependency_layer (_current_state (self st))) = true ->
  forallb (fun kr => is_some (hash_value (snd kr))) (current_records st)
  = true ->
  exists st',
    update_resource_sync_state resource_id new_hash st = (Ok tt, st').
Proof.
  intros Hok Hdir Hdl Hh.
  destruct (current_state_ok_inv st Hok) as [Hr _].
  rewrite update_resource_sync_state_run, _write_run. cbv zeta.
  cbn [self world]. unfold is_dir in *. cbn [dirs]. rewrite Hdir.
  unfold contents. cbn [heap]. rewrite heap_get_set by exact Hr.
  fold (current_records st).
  destruct (dependency_layer (_current_state (self st))) as [dl|] eqn:Edl;
    [|discriminate].
  destruct (remap_total resource_id_toml resource_sync_state_toml_table
              (dict_set (current_records st) resource_id
                 (mkResourceSyncState (Some (TStr new_hash))
                    (clock (world st) (ticks (world st))))) [])
    as [table Htable].
  { intros k r Hin. exists (written_entry r).
    apply resource_sync_state_toml_table_Ok.
    apply In_dict_set in Hin. destruct Hin as [Hin|Heq].
    - rewrite forallb_forall in Hh. specialize (Hh _ Hin). simpl in Hh.
      destruct (hash_value r); [discriminate | discriminate].
    - inversion Heq. discriminate. }
  rewrite <- resource_sync_states_toml_table_remap in Htable.
  rewrite (_sync_state_to_toml_document_Ok _ dl table);
    [eauto | reflexivity | exact Htable].
Qed.

Lemma _toml_document_to_sync_state_distinct (doc : toml_document) s :
  _toml_document_to_sync_state doc = Ok (Some s) ->
  distinct (keys (resource_sync_states s)) = true.
Proof.
  unfold _toml_document_to_sync_state.
  destruct (negb (truthy (Some (TTable doc)))); [discriminate|].
  destruct (negb _); [discriminate|].
  match goal with
  | |- rbind ?r _ = _ -> _ => destruct r as [records|e] eqn:Hrecords
  end; [|discriminate].
  cbn [rbind].
  match goal with
  | |- rbind ?r _ = _ -> _ => destruct r as [dl|e]
  end; [|discriminate].
  cbn [rbind]. intros H. inversion H. cbn [resource_sync_states].
  destruct (truthy _) in Hrecords; [|now inversion Hrecords].
  unfold iterate_resource_sync_states in Hrecords.
  destruct (match dict_get doc RESOURCE_SYNC_STATES with
            | Some v => Some v
            | None => Some (TTable [])
            end) as [[b|z|x|l|t]|]; try discriminate.
  rewrite read_resource_sync_states_remap in Hrecords.
  apply (remap_distinct _ _ _ _ _ Hrecords). reflexivity.
Qed.

(** [current_state_ok] holds of a new store and is kept by the start and
    by every update, however they end. *)
Lemma update_resource_sync_state_keeps_ok (resource_id new_hash : string)
    (st : St) :
  current_state_ok st = true ->
  current_state_ok (snd (update_resource_sync_state resource_id new_hash st))
  = true.
Proof.
  intros Hok. destruct (current_state_ok_inv st Hok) as [Hr Hd].
  rewrite update_resource_sync_state_run. cbv zeta.
  match goal with
  | |- context [_write ?x] => destruct (_write_keeps x) as [Hself Hheap]
  end.
  unfold current_state_ok, current_records. rewrite Hself, Hheap.
  cbn [self world heap]. rewrite length_heap_set, heap_get_set by exact Hr.
  apply andb_true_iff. split; [now apply Nat.ltb_lt|].
  now apply distinct_dict_set.
Qed.

Lemma __enter___keeps_ok (st : St) :
  current_state_ok st = true ->
  current_state_ok (snd (__enter__ st)) = true.
Proof.
  intros Hok.
  assert (Hread : current_state_ok (snd (_read st)) = true).
  { destruct st as [c w].
    unfold _read. unfold_M. cbn [self world].
    destruct (fs_get (files w) (_file_path c)) as [text|]; [|exact Hok].
    cbn [is_OSError].
    destruct (loads text) as [doc|e]; cbn [fst snd].
    - destruct (_toml_document_to_sync_state doc) as [[s|]|e] eqn:Hdec;
        cbn [fst snd self world heap]; [| exact Hok |].
      + unfold current_state_ok, current_records.
        cbn [self world heap _current_state resource_sync_states].
        rewrite heap_get_alloc, length_app.
        apply andb_true_iff. split; [apply Nat.ltb_lt; simpl; lia|].
        apply (_toml_document_to_sync_state_distinct doc s Hdec).
      + destruct (is_OSError e); exact Hok.
    - destruct (is_OSError e); exact Hok. }
  rewrite __enter___run.
  destruct (_read st) as [[u|e] st1]; cbn [snd] in *; [|exact Hread].
  destruct (_previous_state (self st1)) as [p|]; [|exact Hread].
  destruct (py_ne _ _); [|exact Hread].
  destruct (_cleanup_build_folders_run st1) as [w' [Hrun [Hheap _]]].
  rewrite Hrun. cbn [snd]. unfold current_state_ok, current_records in *.
  cbn [self world]. now rewrite Hheap.
Qed.

End Returns.

(** ** The statements on the sample data *)

Section Samples.

Import Sample.

Lemma resource_id_round_trip_witness :
  contains "-" "Stack/Function" = false /\
  resource_sync_state_resource_id (resource_id_toml "Stack/Function")
  = "Stack/Function".
Proof.
  split; [reflexivity|].
  apply (resource_id_round_trip "Stack/Function"). reflexivity.
Defined.

(** C1 fails at an identifier with a ["-"]: it comes back with a ["/"]. *)
Lemma dashed_resource_id_does_not_come_back :
  resource_sync_state_resource_id (resource_id_toml "my-function")
  = "my/function" /\
  resource_sync_state_resource_id (resource_id_toml "my-function")
  <> "my-function".
Proof. split; [reflexivity | discriminate]. Qed.

Lemma sync_state_round_trip_witness :
  well_typed state = true /\
  dash_free state = true /\
  exists doc,
    _sync_state_to_toml_document state = Ok doc /\
    _toml_document_to_sync_state doc = Ok (Some state).
Proof.
  split; [reflexivity|]. split; [reflexivity|].
  apply (sync_state_round_trip state); reflexivity.
Defined.

(** C2 fails at a state with the one identifier ["my-function"]: the
    decoded state has the identifier ["my/function"] instead. *)
Lemma dashed_state_does_not_round_trip :
  well_typed dashed_state = true /\
  exists doc s',
    _sync_state_to_toml_document dashed_state = Ok doc /\
    _toml_document_to_sync_state doc = Ok (Some s') /\
    keys (resource_sync_states s') = ["my/function"] /\
    dict_get (resource_sync_states s') "my-function" = None /\
    resource_sync_states s' <> resource_sync_states dashed_state.
Proof.
  split; [reflexivity|]. eexists. eexists.
  split; [reflexivity|]. split; [reflexivity|].
  split; [reflexivity|]. split; [reflexivity|]. discriminate.
Qed.

Lemma update_is_written_through_witness :
  let st := __init__ true build_dir cache_dir first_run in
  let st' := snd (update_resource_sync_state "Stack/Function" "abc" st) in
  update_resource_sync_state "Stack/Function" "abc" st = (Ok tt, st') /\
  exists s,
    stored_state (world st') state_file = Ok (Some s) /\
    dict_get (resource_sync_states s) "Stack/Function"
    = Some (mkResourceSyncState (Some (TStr "abc")) later).
Proof.
  intros st st'. split; [reflexivity|].
  apply (update_is_written_through "Stack/Function" "abc" st st');
    reflexivity.
Defined.

(** C3 fails at the identifier ["my-function"]: the update returns, and
    the state loaded from the file has no record for it. *)
Lemma dashed_update_is_not_read_back :
  let st := __init__ true build_dir cache_dir first_run in
  exists st' s,
    update_resource_sync_state "my-function" "abc" st = (Ok tt, st') /\
    stored_state (world st') state_file = Ok (Some s) /\
    keys (resource_sync_states s) = ["my/function"] /\
    dict_get (resource_sync_states s) "my-function" = None.
Proof.
  eexists. eexists. split; [reflexivity|]. split; [reflexivity|].
  split; reflexivity.
Qed.

(** Two identifiers under one document key: the later one in the dict is
    the one read back, under the name with ["/"]. *)
Example shadowed_update_is_not_read_back :
  let st0 := __init__ true build_dir cache_dir first_run in
  let st1 := snd (update_resource_sync_state "Stack/Function" "one" st0) in
  let st2 := snd (update_resource_sync_state "Stack-Function" "two" st1) in
  let st3 := snd (update_resource_sync_state "Stack/Function" "three" st2) in
  fst (update_resource_sync_state "Stack/Function" "three" st2) = Ok tt /\
  rbind (stored_state (world st3) state_file) (fun s =>
    Ok (option_map (fun s : SyncState =>
                      option_map hash_value
                        (dict_get (resource_sync_states s) "Stack/Function"))
          s))
  = Ok (Some (Some (Some (TStr "two")))).
Proof. vm_compute. split; reflexivity. Qed.

Lemma update_keeps_rest_of_previous_state_witness :
  let st0 := __init__ true build_dir cache_dir next_run in
  let st1 := snd (__enter__ st0) in
  let st2 := snd (update_resource_sync_state "Function" "xyz" st1) in
  stored_state next_run state_file = Ok (Some state) /\
  exists records2,
    previous_records st2 = Some records2 /\
    dict_get records2 "Layer" = dict_get (resource_sync_states state) "Layer".
Proof.
  intros st0 st1 st2. split; [reflexivity|].
  destruct (update_keeps_rest_of_previous_state true build_dir cache_dir
              next_run state "Function" "xyz" eq_refl)
    as [p [records1 [records2 [_ [_ [_ [_ [H2 [H1 Hrest]]]]]]]]].
  exists records2. split; [exact H2|].
  rewrite <- H1. apply Hrest. discriminate.
Defined.

(** C4 fails in a session that loads the sample state file and then
    updates one resource: the records of previous_state were those of two
    resources after the start and are those of three after the update. *)
Lemma update_changes_previous_state :
  let st0 := __init__ true build_dir cache_dir next_run in
  let st1 := snd (__enter__ st0) in
  let st2 := snd (update_resource_sync_state "Function" "xyz" st1) in
  fst (__enter__ st0) = Ok tt /\
  fst (update_resource_sync_state "Function" "xyz" st1) = Ok tt /\
  option_map keys (previous_records st1) = Some ["Stack/Function"; "Layer"] /\
  option_map keys (previous_records st2)
  = Some ["Stack/Function"; "Layer"; "Function"] /\
  previous_records st2 <> previous_records st1.
Proof.
  cbv zeta. split; [reflexivity|]. split; [reflexivity|].
  split; [reflexivity|]. split; [reflexivity|].
  intros H. apply (f_equal (option_map (@length _))) in H.
  vm_compute in H. discriminate.
Qed.

Lemma decoding_returns_witness :
  readable document_without_hash = true /\
  exists s,
    _toml_document_to_sync_state document_without_hash = Ok s.
Proof.
  split; [reflexivity|].
  apply (decoding_returns document_without_hash). reflexivity.
Defined.

(** C5 fails at a document whose entry has no [sync_time] and at one whose
    [sync_time] is not a date: decoding raises, and so does the start of a
    store whose state file holds such a document. *)
Lemma decoding_raises :
  _toml_document_to_sync_state document_without_sync_time = Raise TypeError /\
  _toml_document_to_sync_state document_with_bad_sync_time = Raise ValueError /\
  fst (__enter__ (__init__ false build_dir cache_dir broken_run))
  = Raise TypeError.
Proof. repeat split; reflexivity. Qed.

(** What the decoder makes of the other malformed documents. *)
Example decoding_without_hash :
  _toml_document_to_sync_state document_without_hash
  = Ok (Some (mkSyncState (Some (TBool false))
                [("Function", mkResourceSyncState None noon)])).
Proof. reflexivity. Qed.

Example decoding_without_sections :
  _toml_document_to_sync_state document_without_sections = Ok None /\
  _toml_document_to_sync_state [] = Ok None.
Proof. split; reflexivity. Qed.

Lemma mode_switch_cleanup_witness :
  stored_state next_run state_file = Ok (Some state) /\
  exists st',
    __enter__ (__init__ false build_dir cache_dir next_run) = (Ok tt, st') /\
    current_records st' = resource_sync_states state /\
    rmtree_calls (world st')
    = [build_dir; cache_dir; DEFAULT_DEPENDENCIES_DIR] /\
    is_dir (world st') build_dir = false /\
    is_dir (world st') cache_dir = false.
Proof.
  split; [reflexivity|].
  destruct (mode_switch_cleanup false build_dir cache_dir next_run
              (Some state) eq_refl) as [st' [Hrun [Hrecords [_ Hrm]]]].
  cbn in Hrm. destruct Hrm as [Hcalls [Hbuild [Hcache _]]].
  exists st'. auto.
Defined.

Lemma start_without_state_file_witness :
  fs_get (files first_run) state_file = None /\
  let st := __init__ true build_dir cache_dir first_run in
  __enter__ st = (Ok tt, st) /\
  _previous_state (self st) = None /\
  current_records st = [].
Proof.
  split; [reflexivity|]. intros st.
  destruct (start_without_state_file true build_dir cache_dir first_run
              eq_refl) as [Hrun [Hp [Hc _]]].
  auto.
Defined.

Lemma start_keeps_dependency_layer_witness :
  let st' := snd (__enter__ (__init__ false build_dir cache_dir next_run)) in
  stored_state next_run state_file = Ok (Some state) /\
  contents (world st') (_current_state (self st'))
  = mkSyncState (Some (TBool false)) (resource_sync_states state).
Proof.
  intros st'. split; [reflexivity|].
  apply (proj2 (start_keeps_dependency_layer false build_dir cache_dir
                  next_run) state).
  reflexivity.
Defined.

Lemma written_state_is_a_previous_state_witness :
  (exists doc s',
      _sync_state_to_toml_document state = Ok doc /\
      is_some (dict_get doc SYNC_STATE) = true /\
      is_some (dict_get doc RESOURCE_SYNC_STATES) = true /\
      _toml_document_to_sync_state doc = Ok (Some s')) /\
  let st := __init__ false build_dir cache_dir first_run in
  let st' := snd (__exit__ st) in
  __exit__ st = (Ok tt, st') /\
  current_records st = [] /\
  exists st'' previous,
    __enter__ (mkSt (self (__init__ true build_dir cache_dir (world st')))
                 (world st'))
    = (Ok tt, st'') /\
    _previous_state (self st'') = Some previous.
Proof.
  split.
  - apply (proj1 written_state_is_a_previous_state state). reflexivity.
  - intros st st'. split; [reflexivity|]. split; [reflexivity|].
    apply (proj2 written_state_is_a_previous_state st st').
    + left. reflexivity.
    + reflexivity.
Defined.

End Samples.

(** * Further properties *)

(** ** Documents read and written again *)

Section Stability.

Context {DT : DateTimeLib} {TK : TomlkitLib}.

Lemma remap_Raise {A B} (f : string -> string) (g : A -> result B)
    (d : list (string * A)) (acc : list (string * B)) e :
  remap f g d acc = Raise e -> exists k a, In (k, a) d /\ g a = Raise e.
Proof.
  revert acc. induction d as [|[k a] d IH]; simpl; intros acc H;
    [discriminate|].
  destruct (g a) as [b|e'] eqn:Eg; simpl in H.
  - destruct (IH _ H) as [k' [a' [Hin Hg]]]. exists k', a'. auto.
  - inversion H; subst. exists k, a. auto.
Qed.

(** What a decoded state was read from. *)
Lemma _toml_document_to_sync_state_inv (doc : toml_document) s :
  _toml_document_to_sync_state doc = Ok (Some s) ->
  exists table,
    read_resource_sync_states table [] = Ok (resource_sync_states s) /\
    (truthy (dict_get doc RESOURCE_SYNC_STATES) = true ->
     dict_get doc RESOURCE_SYNC_STATES = Some (TTable table)) /\
    (truthy (dict_get doc RESOURCE_SYNC_STATES) = false -> table = []) /\
    (if truthy (dict_get doc SYNC_STATE)
     then py_get (dict_get doc SYNC_STATE) DEPENDENCY_LAYER
          = Ok (dependency_layer s)
     else dependency_layer s = Some (TBool false)).
Proof.
  unfold _toml_document_to_sync_state.
  destruct (negb (truthy (Some (TTable doc)))); [discriminate|].
  destruct (dict_get doc RESOURCE_SYNC_STATES) as [x|]; cbv iota.
  - destruct (negb _); [discriminate|].
    destruct (truthy (Some x)) eqn:Ex.
    + destruct x as [b|z|x|l|t]; cbn [iterate_resource_sync_states rbind];
        try discriminate.
      destruct (read_resource_sync_states t []) as [records|e] eqn:Hr;
        cbn [rbind]; [|discriminate].
      destruct (truthy (dict_get doc SYNC_STATE)).
      * destruct (py_get _ _) as [dl|e]; cbn [rbind]; [|discriminate].
        intros H. inversion H. exists t. cbn. repeat split; auto.
        discriminate.
      * cbn [rbind]. intros H. inversion H. exists t. cbn.
        repeat split; auto. discriminate.
    + cbn [rbind].
      destruct (truthy (dict_get doc SYNC_STATE)).
      * destruct (py_get _ _) as [dl|e]; cbn [rbind]; [|discriminate].
        intros H. inversion H. exists []. cbn. repeat split; auto.
        discriminate.
      * cbn [rbind]. intros H. inversion H. exists []. cbn.
        repeat split; auto. discriminate.
  - change (truthy (Some (TTable []))) with false.
    change (truthy None) with false. rewrite orb_false_r.
    destruct (truthy (dict_get doc SYNC_STATE)); cbn [negb];
      [|discriminate].
    cbn [rbind].
    destruct (py_get _ _) as [dl|e]; cbn [rbind]; [|discriminate].
    intros H. inversion H. exists []. cbn. repeat split; auto.
    discriminate.
Qed.

Lemma decoded_identifiers_are_dash_free_aux (doc : toml_document) s :
  _toml_document_to_sync_state doc = Ok (Some s) ->
  dash_free s = true /\ distinct (keys (resource_sync_states s)) = true.
Proof.
  intros Hdec.
  destruct (_toml_document_to_sync_state_inv doc s Hdec)
    as [table [Hread _]].
  rewrite read_resource_sync_states_remap in Hread. split.
  - unfold dash_free. apply forallb_forall. intros [k r] Hin. cbn [fst].
    destruct (remap_In _ _ _ _ _ _ _ Hread Hin) as [[]|[k0 [e [_ [Hk _]]]]].
    subst k. apply negb_true_iff, contains_replace. discriminate.
  - apply (remap_distinct _ _ _ _ _ Hread). reflexivity.
Qed.

(** X2: every state the decoder returns, from whatever document, has
    distinct identifiers and none of them contains ["-"]. *)
Theorem decoded_identifiers_are_dash_free (doc : toml_document) s :
  _toml_document_to_sync_state doc = Ok (Some s) ->
  dash_free s = true /\ distinct (keys (resource_sync_states s)) = true.
Proof.
  intros Hdec.
  destruct (_toml_document_to_sync_state_inv doc s Hdec)
    as [table [Hread _]].
  rewrite read_resource_sync_states_remap in Hread.
  unfold dash_free. rewrite forallb_forall. split.
  - intros [k r] Hin. cbn [fst].
    destruct (remap_In _ _ _ _ _ _ _ Hread Hin) as [[]|[k0 [e [_ [Hk _]]]]].
    subst k. apply negb_true_iff, contains_replace. discriminate.
  - apply (remap_distinct _ _ _ _ _ Hread). reflexivity.
Qed.

Lemma written_hashes (records : list (string * ResourceSyncState)) table :
  resource_sync_states_toml_table records [] = Ok table ->
  forall k r, In (k, r) records -> hash_value r <> None.
Proof.
  rewrite resource_sync_states_toml_table_remap. intros Ht k r Hin.
  destruct (remap_each _ _ _ _ _ _ _ Ht Hin) as [e He].
  now apply resource_sync_state_toml_table_inv in He.
Qed.

(** A state with distinct, dash-free identifiers that has a document is
    read back from it. *)
Lemma clean_round_trip `{!DateTimeLaws DT} (s : SyncState) doc :
  _sync_state_to_toml_document s = Ok doc ->
  distinct (keys (resource_sync_states s)) = true ->
  dash_free s = true ->
  _toml_document_to_sync_state doc = Ok (Some s).
Proof.
  intros Henc Hd Hdash.
  pose proof (dash_free_inv s Hdash) as Hk.
  destruct (_sync_state_to_toml_document_inv s doc Henc)
    as [dl [table [Hdl [Htable Hdoc]]]].
  pose proof (written_hashes _ _ Htable) as Hh.
  destruct s as [dl0 records]. cbn [dependency_layer resource_sync_states] in *.
  subst dl0 doc.
  set (table' := map (fun kr : string * ResourceSyncState =>
                        (resource_id_toml (fst kr), written_entry (snd kr)))
                   records).
  assert (Henc' : resource_sync_states_toml_table records [] = Ok table').
  { rewrite resource_sync_states_toml_table_remap.
    apply (remap_fresh _ _ records [] table'); [| |reflexivity].
    - subst table'. clear - Hh.
      induction records as [|[k r] records IH]; simpl; constructor.
      + simpl. split; [reflexivity|].
        apply resource_sync_state_toml_table_Ok. apply (Hh k). now left.
      + apply IH. intros k' r' Hin. apply (Hh k'). now right.
    - subst table'. unfold keys. rewrite map_map. simpl.
      rewrite <- (map_map fst resource_id_toml).
      apply distinct_map; [|exact Hd].
      intros x y Hx Hy Hxy.
      rewrite <- (resource_id_back x), <- (resource_id_back y); auto.
      now rewrite Hxy. }
  rewrite Htable in Henc'. inversion Henc' as [Heq]. clear Henc'.
  rewrite _toml_document_to_sync_state_written.
  rewrite read_resource_sync_states_remap.
  rewrite (remap_fresh _ _ table' [] records);
    [reflexivity| |exact Hd|reflexivity].
  subst table'. clear - Hh Hk DateTimeLaws0.
  induction records as [|[k r] records IH]; simpl; constructor.
  - simpl. split.
    + symmetry. apply resource_id_back, Hk. now left.
    + apply read_written_entry. apply (Hh k). now left.
  - apply IH.
    + intros k' Hin. apply Hk. now right.
    + intros k' r' Hin. apply (Hh k'). now right.
Qed.

(** X3: a state that was decoded from a document and has a document of its
    own is read back from that one unchanged: loading, saving and loading
    again gives the state of the first load. *)
Theorem decoded_state_round_trips `{!DateTimeLaws DT}
    (doc doc' : toml_document) s :
  _toml_document_to_sync_state doc = Ok (Some s) ->
  _sync_state_to_toml_document s = Ok doc' ->
  _toml_document_to_sync_state doc' = Ok (Some s).
Proof.
  intros Hdec Henc.
  destruct (decoded_identifiers_are_dash_free_aux doc s Hdec) as [Hdash Hd].
  now apply clean_round_trip.
Qed.

(** X1: the document of a state is stable: the state decoded from it has
    the same document, whatever the identifiers of the first state were
    (two of them may even share a document key). *)
Theorem document_is_stable `{!DateTimeLaws DT} (s : SyncState) doc :
  _sync_state_to_toml_document s = Ok doc ->
  exists s',
    _toml_document_to_sync_state doc = Ok (Some s') /\
    _sync_state_to_toml_document s' = Ok doc.
Proof.
  intros Henc.
  destruct (decode_written_document s doc Henc)
    as [table [records [Htable [Hrecords [_ [_ Hdec]]]]]].
  exists (mkSyncState (dependency_layer s) records). split; [exact Hdec|].
  destruct (_sync_state_to_toml_document_inv s doc Henc)
    as [dl [table0 [Hdl [Htable0 Hdoc]]]].
  rewrite Htable in Htable0. inversion Htable0. subst table0 doc.
  apply _sync_state_to_toml_document_Ok; [exact Hdl|].
  cbn [resource_sync_states].
  rewrite resource_sync_states_toml_table_remap in Htable |- *.
  rewrite read_resource_sync_states_remap in Hrecords.
  pose proof (remap_distinct _ _ _ _ _ Htable eq_refl) as Hd.
  assert (Hshape : forall key e, In (key, e) table ->
            contains "/" key = false /\
            exists r, hash_value r <> None /\ e = written_entry r).
  { intros key e Hin.
    destruct (remap_In _ _ _ _ _ _ _ Htable Hin) as [[]|[k [r [_ [Hk Hr]]]]].
    subst key. split; [apply resource_id_toml_no_slash|].
    apply resource_sync_state_toml_table_inv in Hr. exists r. tauto. }
  clear Htable Hdec Henc Hdl.
  assert (Hl : exists l,
            Forall2 (fun ke kr =>
                       fst kr = resource_sync_state_resource_id (fst ke) /\
                       snd ke = written_entry (snd kr) /\
                       hash_value (snd kr) <> None) table l).
  { clear - Hshape. induction table as [|[key e] table IH].
    - exists []. constructor.
    - destruct IH as [l Hl].
      { intros k' e' Hin. apply Hshape. now right. }
      destruct (Hshape key e) as [_ [r [Hh He]]]; [now left|].
      exists ((resource_sync_state_resource_id key, r) :: l).
      constructor; [simpl; auto | exact Hl]. }
  destruct Hl as [l Hl].
  assert (Hkeys : keys l = map resource_sync_state_resource_id (keys table)).
  { clear - Hl. induction Hl as [|ke kr table l [Hk _] _ IH]; simpl;
      [reflexivity|]. now rewrite Hk, IH. }
  assert (Hdl : distinct (keys l) = true).
  { rewrite Hkeys. apply distinct_map; [|exact Hd].
    intros x y Hx Hy Hxy.
    apply in_map_iff in Hx. destruct Hx as [[kx ex] [Ex Hx]].
    apply in_map_iff in Hy. destruct Hy as [[ky ey] [Ey Hy]].
    simpl in Ex, Ey. subst kx ky.
    rewrite <- (resource_id_toml_back x), <- (resource_id_toml_back y).
    - now rewrite Hxy.
    - apply (Hshape y ey Hy).
    - apply (Hshape x ex Hx). }
  assert (Hread : remap resource_sync_state_resource_id
                    read_resource_sync_state table [] = Ok l).
  { apply (remap_fresh _ _ table [] l); [|exact Hdl|reflexivity].
    clear - Hl DateTimeLaws0.
    induction Hl as [|ke kr table l [Hk [He Hh]] _ IH]; constructor;
      [|exact IH].
    split; [exact Hk|]. rewrite He. now apply read_written_entry. }
  rewrite Hrecords in Hread. inversion Hread. subst records.
  apply (remap_fresh _ _ l [] table); [|exact Hd|reflexivity].
  clear - Hl Hshape.
  induction Hl as [|[key e] [k r] table l [Hk [He Hh]] _ IH]; constructor.
  - simpl in *. subst k e. split.
    + symmetry. apply resource_id_toml_back.
      apply (Hshape key (written_entry r)). now left.
    + now apply resource_sync_state_toml_table_Ok.
  - apply IH. intros k' e' Hin. apply Hshape. now right.
Qed.

(** X4: the decoder returns null exactly on the documents whose two
    sections are both absent or empty (the empty document among them);
    every other document gives a state or raises. *)
Theorem decoding_null_iff (doc : toml_document) :
  _toml_document_to_sync_state doc = Ok None
  <-> truthy (dict_get doc SYNC_STATE) = false /\
      truthy (dict_get doc RESOURCE_SYNC_STATES) = false.
Proof.
  unfold _toml_document_to_sync_state.
  destruct doc as [|kv doc']; [simpl; tauto|].
  set (doc := kv :: doc'). change (truthy (Some (TTable doc))) with true.
  cbv beta iota. change (negb true) with false. cbv iota.
  destruct (dict_get doc RESOURCE_SYNC_STATES) as [x|]; cbv iota.
  2: change (truthy (Some (TTable []))) with false;
     change (truthy None) with false.
  all: destruct (truthy (dict_get doc SYNC_STATE));
    try destruct (truthy (Some x)); cbn [negb orb].
  all: try (split; [auto | reflexivity]; fail).
  all: split; [|intros [H1 H2]; discriminate].
  all: repeat match goal with
       | |- rbind ?r _ = _ -> _ =>
           destruct r; cbn [rbind]; try discriminate
       end.
Qed.

Lemma read_resource_sync_state_Raise (entry : toml) e :
  read_resource_sync_state entry = Raise e -> is_OSError e = false.
Proof.
  unfold read_resource_sync_state, py_fromisoformat.
  destruct entry as [b|z|x|l|t]; cbn [py_get rbind];
    try (intros H; inversion H; reflexivity).
  destruct (dict_get t SYNC_TIME) as [[b|z|x|l|t']|]; cbn [rbind];
    try (intros H; inversion H; reflexivity).
  destruct (fromisoformat x); cbn [rbind]; intros H; inversion H.
  reflexivity.
Qed.

Lemma _toml_document_to_sync_state_Raise (doc : toml_document) e :
  _toml_document_to_sync_state doc = Raise e -> is_OSError e = false.
Proof.
  unfold _toml_document_to_sync_state.
  destruct (negb (truthy (Some (TTable doc)))); [discriminate|].
  destruct (negb _); [discriminate|].
  match goal with
  | |- rbind ?r _ = _ -> _ => destruct r as [records|e1] eqn:Hrecords
  end; cbn [rbind].
  - destruct (truthy (dict_get doc SYNC_STATE)); cbn [rbind];
      [|discriminate].
    destruct (dict_get doc SYNC_STATE) as [[b|z|x|l|t]|]; cbn [py_get rbind];
      try discriminate; intros H; inversion H; reflexivity.
  - intros H. inversion H. subst e1. clear H.
    destruct (truthy _) in Hrecords; [|discriminate].
    unfold iterate_resource_sync_states in Hrecords.
    destruct (match dict_get doc RESOURCE_SYNC_STATES with
              | Some v => Some v
              | None => Some (TTable [])
              end) as [[b|z|x|l|t]|];
      try (inversion Hrecords; reflexivity).
    rewrite read_resource_sync_states_remap in Hrecords.
    destruct (remap_Raise _ _ _ _ _ Hrecords) as [k [entry [_ Hentry]]].
    apply (read_resource_sync_state_Raise entry e Hentry).
Qed.

(** X5: on every document that is not readable (a section that is neither
    empty nor a table, an entry that is no table, an entry without
    [sync_time], a [sync_time] that is no date text) the decoder raises,
    and what it raises is never an [OSError]. *)
Theorem decoding_raises_on_unreadable (doc : toml_document) :
  readable doc = false ->
  exists e,
    _toml_document_to_sync_state doc = Raise e /\ is_OSError e = false.
Proof.
  intros Hr.
  destruct (_toml_document_to_sync_state doc) as [state|e] eqn:Hdec.
  - apply returns_only_if_readable in Hdec. congruence.
  - exists e. split; [reflexivity|].
    apply (_toml_document_to_sync_state_Raise doc e Hdec).
Qed.

End Stability.

(** ** Sessions: errors, memory and the file *)

Section Persistence.

Context {DT : DateTimeLib} {TK : TomlkitLib} {BG : BuildGraphLib}.

Lemma _read_raises (st : St) text doc e :
  fs_get (files (world st)) (_file_path (self st)) = Some text ->
  loads text = Ok doc ->
  _toml_document_to_sync_state doc = Raise e ->
  _read st = (Raise e, st).
Proof.
  intros Hf Hl Hdec.
  pose proof (_toml_document_to_sync_state_Raise doc e Hdec) as He.
  destruct st as [c w]. cbn [self world] in Hf.
  unfold _read. unfold_M. cbn [self world].
  rewrite Hf, Hl. cbn. rewrite Hdec. cbn. now rewrite He.
Qed.

(** X6: when the state file parses to a document that is not readable,
    the start raises what the decoder raised (never an [OSError], so the
    handler of [_read] does not apply), before anything is assigned or
    removed: the store and the files are as they were. *)
Theorem start_raises_on_unreadable_file (st : St) text doc :
  fs_get (files (world st)) (_file_path (self st)) = Some text ->
  loads text = Ok doc ->
  readable doc = false ->
  exists e, __enter__ st = (Raise e, st) /\ is_OSError e = false.
Proof.
  intros Hf Hl Hr.
  destruct (_toml_document_to_sync_state doc) as [state|e] eqn:Hdec.
  - apply returns_only_if_readable in Hdec. congruence.
  - exists e. rewrite __enter___run, (_read_raises st text doc e Hf Hl Hdec).
    split; [reflexivity|].
    apply (_toml_document_to_sync_state_Raise doc e Hdec).
Qed.

Lemma current_records_after_update (resource_id new_hash : string)
    (st : St) :
  current_state_ok st = true ->
  current_records (snd (update_resource_sync_state resource_id new_hash st))
  = dict_set (current_records st) resource_id
      (mkResourceSyncState (Some (TStr new_hash))
         (clock (world st) (ticks (world st)))).
Proof.
  intros Hok. destruct (current_state_ok_inv st Hok) as [Hr _].
  rewrite update_resource_sync_state_run. cbv zeta.
  match goal with
  | |- context [_write ?x] => destruct (_write_keeps x) as [Hself Hheap]
  end.
  unfold current_records. rewrite Hself, Hheap. cbn [self world heap].
  now rewrite heap_get_set.
Qed.

(** X7: an update is seen by the queries that follow it, however the
    update ends (also when writing the file raises): the identifier gets
    the new hash, and every other identifier gets what it got before. *)
Theorem update_then_get (resource_id new_hash : string) (st : St) :
  current_state_ok st = true ->
  let st' := snd (update_resource_sync_state resource_id new_hash st) in
  get_resource_latest_sync_hash resource_id st'
  = (Ok (Some (TStr new_hash)), st') /\
  forall other,
    other <> resource_id ->
    fst (get_resource_latest_sync_hash other st')
    = fst (get_resource_latest_sync_hash other st).
Proof.
  intros Hok st'.
  pose proof (current_records_after_update resource_id new_hash st Hok)
    as Hrecords.
  fold st' in Hrecords. split.
  - rewrite get_resource_latest_sync_hash_run, Hrecords.
    now rewrite dict_get_set_same.
  - intros other Hother.
    rewrite !get_resource_latest_sync_hash_run, Hrecords. cbn [fst].
    rewrite dict_get_set_other by congruence. reflexivity.
Qed.

(** X8: when the directory of the state file does not exist, [__exit__]
    and [update_resource_sync_state] raise [OSError] and leave the files
    and directories as they were; [__exit__] leaves everything as it
    was. *)
Theorem write_failure_propagates (resource_id new_hash : string) (st : St) :
  is_dir (world st) (Path_parent (_file_path (self st))) = false ->
  __exit__ st = (Raise OSError, st) /\
  fst (update_resource_sync_state resource_id new_hash st) = Raise OSError /\
  files (world (snd (update_resource_sync_state resource_id new_hash st)))
  = files (world st) /\
  dirs (world (snd (update_resource_sync_state resource_id new_hash st)))
  = dirs (world st).
Proof.
  intros Hdir. split.
  - unfold __exit__. rewrite _write_run. cbv zeta. now rewrite Hdir.
  - rewrite update_resource_sync_state_run, _write_run. cbv zeta.
    cbn [self world]. unfold is_dir in *. cbn [dirs]. rewrite Hdir.
    auto.
Qed.

Lemma remap_Raise_intro {A B} (f : string -> string) (g : A -> result B)
    (d : list (string * A)) (acc : list (string * B)) k a e :
  In (k, a) d ->
  g a = Raise e ->
  (forall a' e', g a' = Raise e' -> e' = e) ->
  remap f g d acc = Raise e.
Proof.
  intros Hin Hg Hall. revert acc.
  induction d as [|[k0 a0] d IH]; simpl; intros acc; [contradiction|].
  destruct (g a0) as [b|e0] eqn:Eg; simpl.
  - destruct Hin as [Heq|Hin]; [inversion Heq; subst; congruence|].
    now apply IH.
  - f_equal. eauto.
Qed.

Lemma _sync_state_to_toml_document_Raise (s : SyncState) :
  dependency_layer s = None \/
  (exists k r, In (k, r) (resource_sync_states s) /\ hash_value r = None) ->
  _sync_state_to_toml_document s = Raise ValueError.
Proof.
  unfold _sync_state_to_toml_document.
  destruct (dependency_layer s) as [dl|]; [|reflexivity].
  intros [H|[k [r [Hin Hh]]]]; [discriminate|]. cbn [tomlkit_item rbind].
  rewrite resource_sync_states_toml_table_remap.
  rewrite (remap_Raise_intro _ _ _ _ k r ValueError Hin); [reflexivity| |].
  - unfold resource_sync_state_toml_table. now rewrite Hh.
  - intros r' e'. unfold resource_sync_state_toml_table.
    destruct (hash_value r'); cbn; intros H; inversion H. reflexivity.
Qed.

(** X9: when a value of the current state is [None] (a record loaded from
    an entry without [hash]), [__exit__] raises [ValueError] after the file
    was opened for writing: the state file is left empty. *)
Theorem none_value_empties_state_file (st : St) :
  is_dir (world st) (Path_parent (_file_path (self st))) = true ->
  (exists k r, In (k, r) (current_records st) /\ hash_value r = None) ->
  exists st',
    __exit__ st = (Raise ValueError, st') /\
    self st' = self st /\
    fs_get (files (world st')) (_file_path (self st)) = Some empty_text.
Proof.
  intros Hdir Hnone.
  unfold __exit__. rewrite _write_run. cbv zeta. rewrite Hdir.
  rewrite _sync_state_to_toml_document_Raise by (right; exact Hnone).
  eexists. split; [reflexivity|]. split; [reflexivity|].
  cbn [world files]. apply fs_get_put.
Qed.

End Persistence.

(** ** Sessions: what the file holds *)

Section Mirror.

Context {DT : DateTimeLib} {TK : TomlkitLib} {BG : BuildGraphLib}.

Lemma dash_free_set flag flag' (records : list (string * ResourceSyncState))
    resource_id r :
  dash_free (mkSyncState flag records) = true ->
  contains "-" resource_id = false ->
  dash_free (mkSyncState flag' (dict_set records resource_id r)) = true.
Proof.
  unfold dash_free. cbn [resource_sync_states].
  rewrite !forallb_forall. intros Hall Hid [k r'] Hin. cbn [fst].
  apply In_dict_set in Hin. destruct Hin as [Hin|Heq].
  - apply (Hall _ Hin).
  - inversion Heq. subst. now rewrite Hid.
Qed.

(** X10: in a store whose identifiers contain no ["-"], when an update for
    such an identifier returns, the state file decodes to the current
    state exactly: the flag of the session and every record held in
    memory.  The identifiers of the current state still contain no ["-"],
    so this holds for the next update as well: no update is lost. *)
Theorem update_mirrors_memory `{!DateTimeLaws DT} `{!TomlkitLaws TK}
    (resource_id new_hash : string) (st st' : St) :
  current_state_ok st = true ->
  dash_free (contents (world st) (_current_state (self st))) = true ->
  contains "-" resource_id = false ->
  update_resource_sync_state resource_id new_hash st = (Ok tt, st') ->
  stored_state (world st') (_file_path (self st'))
  = Ok (Some (contents (world st') (_current_state (self st')))) /\
  current_state_ok st' = true /\
  dash_free (contents (world st') (_current_state (self st'))) = true.
Proof.
  intros Hok Hdash Hid Hrun.
  pose proof (update_resource_sync_state_keeps_ok resource_id new_hash st Hok)
    as Hok'.
  pose proof (current_records_after_update resource_id new_hash st Hok)
    as Hrecords.
  rewrite Hrun in Hok', Hrecords. cbn [snd] in Hok', Hrecords.
  assert (Hself : self st' = self st).
  { rewrite update_resource_sync_state_run in Hrun. cbv zeta in Hrun.
    match type of Hrun with
    | _write ?x = _ => destruct (_write_keeps x) as [H _]
    end.
    now rewrite Hrun in H. }
  assert (Hcontents :
    contents (world st') (_current_state (self st'))
    = mkSyncState (dependency_layer (_current_state (self st)))
        (dict_set (current_records st) resource_id
           (mkResourceSyncState (Some (TStr new_hash))
              (clock (world st) (ticks (world st)))))).
  { unfold contents. fold (current_records st'). now rewrite Hrecords, Hself. }
  assert (Hdash' : dash_free (contents (world st') (_current_state (self st')))
                   = true).
  { rewrite Hcontents. now apply (dash_free_set _ _ _ _ _ Hdash). }
  split; [|auto].
  rewrite update_resource_sync_state_run in Hrun. cbv zeta in Hrun.
  destruct (_write_Ok _ _ Hrun) as [doc [Hdoc [_ Hstored]]].
  cbn [self world] in Hdoc, Hstored.
  rewrite <- Hself in Hstored. rewrite Hstored.
  unfold contents in Hdoc. cbn [heap] in Hdoc.
  rewrite heap_get_set in Hdoc
    by (now destruct (current_state_ok_inv st Hok)).
  fold (current_records st) in Hdoc. rewrite <- Hcontents in Hdoc.
  apply (clean_round_trip _ _ Hdoc); [|exact Hdash'].
  destruct (current_state_ok_inv st' Hok') as [_ Hd]. exact Hd.
Qed.

Lemma stored_state_Some (w : World) (path : Path) s :
  stored_state w path = Ok (Some s) ->
  exists doc, _toml_document_to_sync_state doc = Ok (Some s).
Proof.
  unfold stored_state.
  destruct (fs_get (files w) path) as [text|]; [|discriminate].
  destruct (loads text) as [doc|e]; cbn [rbind]; [|discriminate].
  eauto.
Qed.

Lemma start_loaded (flag : bool) (build_dir cache_dir : Path) (w : World)
    (previous : SyncState) :
  let st0 := __init__ flag build_dir cache_dir w in
  stored_state w (_file_path (self st0)) = Ok (Some previous) ->
  exists st1,
    __enter__ st0 = (Ok tt, st1) /\
    _file_path (self st1) = _file_path (self st0) /\
    contents (world st1) (_current_state (self st1))
    = mkSyncState (Some (TBool flag)) (resource_sync_states previous).
Proof.
  intros st0 Hs.
  destruct (__init___fresh flag build_dir cache_dir w) as [Hp _].
  fold st0 in Hp.
  rewrite <- (stored_state___init__ flag build_dir cache_dir w) in Hs.
  fold st0 in Hs.
  destruct (__enter___after_read st0 _ (stored_state_read st0 _ Hs Hp))
    as [st1 [Hrun [Hself Hheap]]].
  exists st1. split; [exact Hrun|]. unfold contents.
  rewrite Hself, Hheap.
  cbn [loaded self world heap _current_state _file_path dependency_layer
       resource_sync_states].
  rewrite heap_get_alloc. auto.
Qed.

(** X11: a session that loads a previous state and stops without an
    update writes the records of the previous state back unchanged, under
    the flag of the new session (the stored flag is replaced, the records
    are not). *)
Theorem session_carries_records_forward
    `{!DateTimeLaws DT} `{!TomlkitLaws TK} (flag : bool)
    (build_dir cache_dir : Path) (w : World) (previous : SyncState)
    (st2 : St) :
  let st0 := __init__ flag build_dir cache_dir w in
  let st1 := snd (__enter__ st0) in
  stored_state w (_file_path (self st0)) = Ok (Some previous) ->
  __exit__ st1 = (Ok tt, st2) ->
  stored_state (world st2) (_file_path (self st0))
  = Ok (Some (mkSyncState (Some (TBool flag))
                (resource_sync_states previous))).
Proof.
  intros st0 st1 Hs Hexit.
  destruct (start_loaded flag build_dir cache_dir w previous Hs)
    as [st1' [Hrun [Hpath Hcontents]]].
  fold st0 in Hrun, Hpath.
  assert (Hst1 : st1 = st1') by (unfold st1; now rewrite Hrun).
  clearbody st1. subst st1'.
  destruct (_write_Ok _ _ Hexit) as [doc [Hdoc [_ Hstored]]].
  rewrite Hpath in Hstored. rewrite Hstored. rewrite Hcontents in Hdoc.
  destruct (stored_state_Some _ _ _ Hs) as [doc0 Hdoc0].
  destruct (decoded_identifiers_are_dash_free_aux doc0 previous Hdoc0)
    as [Hdash Hd].
  apply (clean_round_trip _ _ Hdoc); [exact Hd | exact Hdash].
Qed.



End Mirror.

(** ** From one session to the next *)

Section NextSession.

Context {DT : DateTimeLib} {TK : TomlkitLib} {BG : BuildGraphLib}.

Lemma update_stored_record `{!DateTimeLaws DT} `{!TomlkitLaws TK}
    (resource_id new_hash : string) (st st' : St) :
  current_state_ok st = true ->
  contains "-" resource_id = false ->
  alone_under_its_key resource_id (current_records st) = true ->
  update_resource_sync_state resource_id new_hash st = (Ok tt, st') ->
  exists s,
    stored_state (world st') (_file_path (self st)) = Ok (Some s) /\
    dict_get (resource_sync_states s) resource_id
    = Some (mkResourceSyncState (Some (TStr new_hash))
              (clock (world st) (ticks (world st)))).
Proof.
  intros Hok Hdash Halone Hrun.
  destruct (current_state_ok_inv st Hok) as [Hr Hd].
  rewrite update_resource_sync_state_run in Hrun. cbv zeta in Hrun.
  destruct (_write_Ok _ _ Hrun) as [doc [Hdoc [_ Hstored]]].
  cbn [self world] in Hdoc, Hstored. rewrite Hstored.
  unfold contents in Hdoc. cbn [heap] in Hdoc.
  rewrite heap_get_set in Hdoc by exact Hr.
  fold (current_records st) in Hdoc.
  apply (record_read_back _ _ _ _ Hdoc); cbn [resource_sync_states].
  - now apply distinct_dict_set.
  - apply dict_get_set_same.
  - exact Hdash.
  - now apply alone_under_its_key_set.
Qed.

(** X13: the hash given to an update that returned is the hash a later
    session finds: a store constructed afterwards on the same state file,
    with either flag, starts without raising and answers the query for the
    identifier with that hash (the identifier has no ["-"] and shares its
    document key with no other). *)
Theorem hash_is_found_in_next_session `{!DateTimeLaws DT} `{!TomlkitLaws TK}
    (resource_id new_hash : string) (st st' : St)
    (flag : bool) (build_dir cache_dir : Path) :
  current_state_ok st = true ->
  contains "-" resource_id = false ->
  alone_under_its_key resource_id (current_records st) = true ->
  update_resource_sync_state resource_id new_hash st = (Ok tt, st') ->
  let next := __init__ flag build_dir cache_dir (world st') in
  _file_path (self next) = _file_path (self st) ->
  exists st'',
    __enter__ next = (Ok tt, st'') /\
    get_resource_latest_sync_hash resource_id st''
    = (Ok (Some (TStr new_hash)), st'').
Proof.
  intros Hok Hdash Halone Hrun next Hpath.
  destruct (update_stored_record resource_id new_hash st st'
              Hok Hdash Halone Hrun) as [s [Hstored Hget]].
  rewrite <- Hpath in Hstored.
  destruct (start_loaded flag build_dir cache_dir (world st') s Hstored)
    as [st'' [Hstart [_ Hcontents]]].
  exists st''. split; [exact Hstart|].
  rewrite get_resource_latest_sync_hash_run.
  change (current_records st'')
    with (resource_sync_states
            (contents (world st'') (_current_state (self st'')))).
  rewrite Hcontents. cbn [resource_sync_states]. now rewrite Hget.
Qed.

Lemma _read_cases (st : St) :
  snd (_read st) = st \/
  exists doc state,
    _toml_document_to_sync_state doc = Ok state /\
    _read st = (Ok tt, loaded st state).
Proof.
  destruct (fs_get (files (world st)) (_file_path (self st)))
    as [text|] eqn:Hf.
  - destruct (loads text) as [doc|e] eqn:Hl.
    + destruct (_toml_document_to_sync_state doc) as [state|e] eqn:Hdec.
      * right. exists doc, state. split; [exact Hdec|].
        apply (_read_present st text); [exact Hf|]. now rewrite Hl.
      * left. now rewrite (_read_raises st text doc e Hf Hl Hdec).
    + left. destruct st as [c w]. cbn [self world] in Hf.
      unfold _read. unfold_M. cbn [self world]. rewrite Hf, Hl. cbn.
      destruct (is_OSError e); reflexivity.
  - left. now rewrite (_read_absent st Hf).
Qed.

(** The records of the current state after the start of a new store:
    none, or those of a decoded state. *)
Lemma start_records (flag : bool) (build_dir cache_dir : Path) (w : World) :
  let st' := snd (__enter__ (__init__ flag build_dir cache_dir w)) in
  current_records st' = [] \/
  exists doc s,
    _toml_document_to_sync_state doc = Ok (Some s) /\
    current_records st' = resource_sync_states s.
Proof.
  set (st0 := __init__ flag build_dir cache_dir w). cbv zeta.
  destruct (__init___fresh flag build_dir cache_dir w) as [Hp [Hc _]].
  fold st0 in Hp, Hc.
  destruct (_read_cases st0) as [Hsame | [doc [state [Hdec Hread]]]].
  - left. rewrite __enter___run.
    destruct (_read st0) as [[u|e] st1]; cbn [snd] in Hsame; subst st1;
      [rewrite Hp|]; exact Hc.
  - destruct (__enter___after_read st0 state Hread)
      as [st' [Hrun [Hself Hheap]]].
    rewrite Hrun. cbn [snd]. unfold current_records.
    rewrite Hself, Hheap. destruct state as [s|].
    + right. exists doc, s. split; [exact Hdec|].
      apply (current_records_loaded st0 s).
    + left. exact Hc.
Qed.

(** X14: in a store that was just constructed and started, whatever the
    state file holds and however the start ended, the query for an
    identifier that contains ["-"] returns null. *)
Theorem dashed_identifier_is_not_found (flag : bool)
    (build_dir cache_dir : Path) (w : World) (resource_id : string) :
  contains "-" resource_id = true ->
  fst (get_resource_latest_sync_hash resource_id
         (snd (__enter__ (__init__ flag build_dir cache_dir w))))
  = Ok None.
Proof.
  intros Hdash. rewrite get_resource_latest_sync_hash_run. cbn [fst].
  destruct (start_records flag build_dir cache_dir w)
    as [Hempty | [doc [s [Hdec Hrecords]]]].
  - now rewrite Hempty.
  - rewrite Hrecords.
    destruct (dict_get (resource_sync_states s) resource_id) as [r|] eqn:Hget;
      [|reflexivity].
    apply dict_get_In in Hget.
    destruct (decoded_identifiers_are_dash_free_aux doc s Hdec) as [Hfree _].
    unfold dash_free in Hfree. rewrite forallb_forall in Hfree.
    specialize (Hfree _ Hget). cbn [fst] in Hfree.
    rewrite Hdash in Hfree. discriminate.
Qed.

End NextSession.

(** ** Starting and stopping again *)

Section Again.

Context {DT : DateTimeLib} {TK : TomlkitLib} {BG : BuildGraphLib}.

(** X15: when the stored state has no dependency_layer at all (its
    [sync_state] table is there but lacks the key), it differs from either
    flag: the start of a new store removes the three directories whatever
    flag the store was constructed with. *)
Theorem missing_flag_always_cleans (flag : bool)
    (build_dir cache_dir : Path) (w : World) (previous : SyncState) :
  let st0 := __init__ flag build_dir cache_dir w in
  stored_state w (_file_path (self st0)) = Ok (Some previous) ->
  dependency_layer previous = None ->
  exists st1,
    __enter__ st0 = (Ok tt, st1) /\
    rmtree_calls (world st1)
    = (rmtree_calls w
       ++ [build_dir; cache_dir; DEFAULT_DEPENDENCIES_DIR])%list.
Proof.
  intros st0 Hs Hnone.
  destruct previous as [dl records]. cbn [dependency_layer] in Hnone.
  subst dl.
  destruct (__init___fresh flag build_dir cache_dir w) as [Hp [_ [Hdl _]]].
  fold st0 in Hp, Hdl.
  rewrite <- (stored_state___init__ flag build_dir cache_dir w) in Hs.
  fold st0 in Hs.
  rewrite __enter___run, (stored_state_read st0 _ Hs Hp).
  cbn [loaded self _previous_state _current_state dependency_layer].
  rewrite Hdl. cbn [py_ne py_eq negb].
  destruct (_cleanup_build_folders_run
              (loaded st0 (Some (mkSyncState None records))))
    as [w' [Hrun [_ [Hcalls _]]]].
  eexists. split; [exact Hrun|]. exact Hcalls.
Qed.

Lemma fs_put_put (fs : list (Path * Text)) (p : Path) (a b : Text) :
  fs_put (fs_put fs p a) p b = fs_put fs p b.
Proof.
  induction fs as [|[q u] fs IH]; simpl.
  - now rewrite Path_eqb_refl.
  - destruct (Path_eqb q p) eqn:E; simpl; rewrite E; [reflexivity|].
    now rewrite IH.
Qed.

(** X16: writing is idempotent: when [__exit__] or an update has returned,
    a further [__exit__] returns as well and changes nothing, neither in
    the store nor in the files. *)
Theorem stop_after_a_write_changes_nothing (st st' : St) :
  (__exit__ st = (Ok tt, st') \/
   exists resource_id new_hash,
     update_resource_sync_state resource_id new_hash st = (Ok tt, st')) ->
  __exit__ st' = (Ok tt, st').
Proof.
  intros Hrun.
  assert (Hw : exists x, _write x = (Ok tt, st')).
  { destruct Hrun as [Hrun | [resource_id [new_hash Hrun]]].
    - now exists st.
    - rewrite update_resource_sync_state_run in Hrun. cbv zeta in Hrun.
      eexists. exact Hrun. }
  destruct Hw as [x Hx]. clear Hrun.
  unfold __exit__. rewrite _write_run in Hx |- *. cbv zeta in Hx |- *.
  destruct (is_dir (world x) (Path_parent (_file_path (self x)))) eqn:Hdir;
    [|discriminate].
  destruct (_sync_state_to_toml_document
              (contents (world x) (_current_state (self x))))
    as [doc|e] eqn:Hdoc; [|discriminate].
  inversion Hx as [Hst']. clear Hx.
  cbn [self world]. unfold is_dir in *. cbn [dirs]. rewrite Hdir.
  unfold contents in *. cbn [heap]. rewrite Hdoc.
  cbn [files dirs rmtree_calls heap clock ticks].
  now rewrite !fs_put_put.
Qed.

End Again.

(** ** The further properties on the sample data *)

Section Scenarios.

Import Sample Scenario.

Lemma document_is_stable_witness :
  _sync_state_to_toml_document dashed_state = Ok dashed_document /\
  exists s',
    _toml_document_to_sync_state dashed_document = Ok (Some s') /\
    _sync_state_to_toml_document s' = Ok dashed_document.
Proof.
  split; [reflexivity|].
  apply (document_is_stable dashed_state dashed_document). reflexivity.
Defined.

Lemma decoded_identifiers_are_dash_free_witness :
  _toml_document_to_sync_state document = Ok (Some state) /\
  dash_free state = true /\
  distinct (keys (resource_sync_states state)) = true.
Proof.
  split; [reflexivity|].
  apply (decoded_identifiers_are_dash_free document state). reflexivity.
Defined.

Lemma decoded_state_round_trips_witness :
  _toml_document_to_sync_state document_with_extras = Ok (Some state) /\
  _sync_state_to_toml_document state = Ok document /\
  _toml_document_to_sync_state document = Ok (Some state).
Proof.
  split; [reflexivity|]. split; [reflexivity|].
  apply (decoded_state_round_trips document_with_extras document state);
    reflexivity.
Defined.

Lemma decoding_null_iff_witness :
  _toml_document_to_sync_state document_without_sections = Ok None.
Proof.
  apply (proj2 (decoding_null_iff document_without_sections)).
  split; reflexivity.
Defined.

Lemma decoding_raises_on_unreadable_witness :
  readable document_with_bad_sync_time = false /\
  exists e,
    _toml_document_to_sync_state document_with_bad_sync_time = Raise e /\
    is_OSError e = false.
Proof.
  split; [reflexivity|].
  apply (decoding_raises_on_unreadable document_with_bad_sync_time).
  reflexivity.
Defined.

Lemma start_raises_on_unreadable_file_witness :
  let st := __init__ false build_dir cache_dir broken_run in
  readable document_without_sync_time = false /\
  exists e, __enter__ st = (Raise e, st) /\ is_OSError e = false.
Proof.
  intros st. split; [reflexivity|].
  apply (start_raises_on_unreadable_file st document_without_sync_time
           document_without_sync_time); reflexivity.
Defined.

Lemma update_then_get_witness :
  let st := __init__ true build_dir cache_dir no_directory_run in
  let st' := snd (update_resource_sync_state "Function" "abc" st) in
  fst (update_resource_sync_state "Function" "abc" st) = Raise OSError /\
  get_resource_latest_sync_hash "Function" st'
  = (Ok (Some (TStr "abc")), st').
Proof.
  intros st st'. split; [reflexivity|].
  apply (update_then_get "Function" "abc" st). reflexivity.
Defined.

Lemma write_failure_propagates_witness :
  let st := __init__ true build_dir cache_dir no_directory_run in
  is_dir (world st) (Path_parent (_file_path (self st))) = false /\
  __exit__ st = (Raise OSError, st).
Proof.
  intros st. split; [reflexivity|].
  apply (write_failure_propagates "Function" "abc" st). reflexivity.
Defined.

Lemma none_value_empties_state_file_witness :
  let st := snd (__enter__ (__init__ false build_dir cache_dir hashless_run)) in
  fst (__enter__ (__init__ false build_dir cache_dir hashless_run)) = Ok tt /\
  exists st',
    __exit__ st = (Raise ValueError, st') /\
    self st' = self st /\
    fs_get (files (world st')) state_file = Some empty_text.
Proof.
  intros st. split; [reflexivity|].
  apply (none_value_empties_state_file st); [reflexivity|].
  exists "Function", (mkResourceSyncState None noon).
  split; [left; reflexivity | reflexivity].
Defined.

Lemma update_mirrors_memory_witness :
  let st := snd (__enter__ (__init__ true build_dir cache_dir next_run)) in
  let st' := snd (update_resource_sync_state "Function" "xyz" st) in
  update_resource_sync_state "Function" "xyz" st = (Ok tt, st') /\
  stored_state (world st') state_file
  = Ok (Some (contents (world st') (_current_state (self st')))) /\
  keys (current_records st') = ["Stack/Function"; "Layer"; "Function"].
Proof.
  intros st st'. split; [reflexivity|].
  split; [|reflexivity].
  apply (update_mirrors_memory "Function" "xyz" st st'); reflexivity.
Defined.

Lemma session_carries_records_forward_witness :
  let st1 := snd (__enter__ (__init__ false build_dir cache_dir next_run)) in
  let st2 := snd (__exit__ st1) in
  stored_state next_run state_file = Ok (Some state) /\
  dependency_layer state = Some (TBool true) /\
  stored_state (world st2) state_file
  = Ok (Some (mkSyncState (Some (TBool false))
                (resource_sync_states state))).
Proof.
  intros st1 st2. split; [reflexivity|]. split; [reflexivity|].
  apply (session_carries_records_forward false build_dir cache_dir next_run
           state st2); reflexivity.
Defined.


Lemma hash_is_found_in_next_session_witness :
  let st := __init__ true build_dir cache_dir first_run in
  let st' := snd (update_resource_sync_state "Stack/Function" "abc" st) in
  update_resource_sync_state "Stack/Function" "abc" st = (Ok tt, st') /\
  exists st'',
    __enter__ (__init__ false build_dir cache_dir (world st')) = (Ok tt, st'')
    /\ get_resource_latest_sync_hash "Stack/Function" st''
       = (Ok (Some (TStr "abc")), st'').
Proof.
  intros st st'. split; [reflexivity|].
  apply (hash_is_found_in_next_session "Stack/Function" "abc" st st'
           false build_dir cache_dir); reflexivity.
Defined.

Lemma dashed_identifier_is_not_found_witness :
  let st := __init__ true build_dir cache_dir first_run in
  let st' := snd (update_resource_sync_state "my-function" "abc" st) in
  fst (update_resource_sync_state "my-function" "abc" st) = Ok tt /\
  fst (get_resource_latest_sync_hash "my-function"
         (snd (__enter__ (__init__ true build_dir cache_dir (world st')))))
  = Ok None.
Proof.
  intros st st'. split; [reflexivity|].
  apply (dashed_identifier_is_not_found true build_dir cache_dir (world st')
           "my-function").
  reflexivity.
Defined.

Lemma missing_flag_always_cleans_witness :
  stored_state flagless_run state_file = Ok (Some state_without_flag) /\
  (exists st1,
      __enter__ (__init__ true build_dir cache_dir flagless_run)
      = (Ok tt, st1) /\
      rmtree_calls (world st1)
      = [build_dir; cache_dir; DEFAULT_DEPENDENCIES_DIR]) /\
  (exists st1,
      __enter__ (__init__ false build_dir cache_dir flagless_run)
      = (Ok tt, st1) /\
      rmtree_calls (world st1)
      = [build_dir; cache_dir; DEFAULT_DEPENDENCIES_DIR]).
Proof.
  split; [reflexivity|]. split.
  - apply (missing_flag_always_cleans true build_dir cache_dir flagless_run
             state_without_flag); reflexivity.
  - apply (missing_flag_always_cleans false build_dir cache_dir flagless_run
             state_without_flag); reflexivity.
Defined.

Lemma stop_after_a_write_changes_nothing_witness :
  let st := __init__ true build_dir cache_dir first_run in
  let st' := snd (update_resource_sync_state "Function" "abc" st) in
  update_resource_sync_state "Function" "abc" st = (Ok tt, st') /\
  __exit__ st' = (Ok tt, st').
Proof.
  intros st st'. split; [reflexivity|].
  apply (stop_after_a_write_changes_nothing st st').
  right. exists "Function", "abc". reflexivity.
Defined.

End Scenarios.
